(** * caddy-webdav: the WebDAV handler module of webdav.go

    A shallow embedding of [WebDAV.Provision], [WebDAV.ServeHTTP] and
    [emptyBodyResponseWriter] (src/webdav.go). Package os, [path.Dir],
    caddy's replacer and the handler of golang.org/x/net/webdav are the
    fields of two type classes; the few operations of net/http and zap the
    file calls are written out. The proofs are about what the module does
    with a request before, and instead of, handing it to the WebDAV
    handler. *)

From Stdlib Require Import ZArith String Ascii List Bool.
From stdpp Require Import base strings gmap list.

Local Open Scope Z_scope.

(** ** Go values: errors, file information, HTTP headers *)

Inductive Errno := ENOENT | EEXIST | ENOTDIR | EACCES | EIO.

(** Go's [error] values that reach this file: the sentinel [os.ErrNotExist],
    the [os.PathError] returned by [os.Stat] and [os.MkdirAll], and the
    plain errors of [errors.New]. *)
Inductive error :=
| ErrNotExist
| PathError (Op Path : string) (Err : Errno)
| errors_New (text : string).

(** [os.IsNotExist(err)]: [nil] is not a not-exist error. *)
Definition os_IsNotExist (err : option error) : bool :=
  match err with
  | Some ErrNotExist => true
  | Some (PathError _ _ ENOENT) => true
  | _ => false
  end.

(** A Go result pair [(value, err)] of which exactly one side is set. *)
Inductive res (A : Type) :=
| Ok (a : A)
| Err (e : error).
Arguments Ok {A} a.
Arguments Err {A} e.

Definition res_err {A} (x : res A) : option error :=
  match x with Ok _ => None | Err e => Some e end.

Record FileInfo := { fi_Name : string; fi_Size : Z; fi_IsDir : bool }.

(** [http.Header] is [map[string][]string]. The handler only uses the
    literal key [Depth], which is its own canonical MIME form, so the
    canonicalisation done by [Get] and [Add] is the identity here. *)
Abbreviation http_Header := (gmap string (list string)).

Definition Header_Get (h : http_Header) (key : string) : string :=
  match h !! key with
  | Some (v :: _) => v
  | _ => ""%string
  end.

Definition Header_Add (key value : string) (h : http_Header) : http_Header :=
  <[key := default [] (h !! key) ++ [value]]> h.

Definition Header_Set (key value : string) (h : http_Header) : http_Header :=
  <[key := [value]]> h.

Definition Header_Del (key : string) (h : http_Header) : http_Header :=
  delete key h.

(** ** The response as the client sees it, and [http.ResponseWriter] *)

Record Response := {
  resp_status : option Z;      (* [None] until the status line is written *)
  resp_header : http_Header;
  resp_body : string
}.

(** The interface [http.ResponseWriter]: [Header()] hands out the mutable
    header map (modelled by applying a mutation to it), [Write] returns
    [(n, err)], [WriteHeader] sends the status. *)
Record ResponseWriter := {
  rw_Header : (http_Header -> http_Header) -> Response -> Response;
  rw_Write : string -> Response -> (Z * option error) * Response;
  rw_WriteHeader : Z -> Response -> Response
}.

(** [emptyBodyResponseWriter] embeds the writer it wraps, so [Header] and
    [WriteHeader] are the wrapped writer's; [Write] returns [0, nil] and
    does not touch it. *)
Definition emptyBodyResponseWriter (w : ResponseWriter) : ResponseWriter :=
  {| rw_Header := rw_Header w;
     rw_Write := fun (data : string) (c : Response) => ((0, None), c);
     rw_WriteHeader := rw_WriteHeader w |}.

(** What a handler can do with a writer: a sequence of calls of its three
    methods. *)
Inductive WriterCall :=
| CallHeader (f : http_Header -> http_Header)
| CallWrite (data : string)
| CallWriteHeader (code : Z).

Definition run_call (w : ResponseWriter) (k : WriterCall) (c : Response)
    : Response :=
  match k with
  | CallHeader f => rw_Header w f c
  | CallWrite data => snd (rw_Write w data c)
  | CallWriteHeader code => rw_WriteHeader w code c
  end.

Definition run_calls (w : ResponseWriter) (calls : list WriterCall)
    (c : Response) : Response :=
  fold_left (fun c k => run_call w k c) calls c.

Definition is_Write (k : WriterCall) : bool :=
  match k with CallWrite _ => true | _ => false end.

(** A writer whose header methods leave the body alone. *)
Definition keeps_body (w : ResponseWriter) : Prop :=
  (forall f c, resp_body (rw_Header w f c) = resp_body c) /\
  (forall code c, resp_body (rw_WriteHeader w code c) = resp_body c).

(** [http.Error(w, msg, code)] of net/http. *)
Definition http_Error (w : ResponseWriter) (msg : string) (code : Z)
    (c : Response) : Response :=
  let c := rw_Header w (Header_Del "Content-Length") c in
  let c := rw_Header w (Header_Set "Content-Type" "text/plain; charset=utf-8") c in
  let c := rw_Header w (Header_Set "X-Content-Type-Options" "nosniff") c in
  let c := rw_WriteHeader w code c in
  snd (rw_Write w (msg +:+ String "010"%char EmptyString) c).






Definition StatusInternalServerError : Z := 500.

(** The octal literal [0755]. *)
Definition perm_0755 : Z := 7 * 64 + 5 * 8 + 5.

(** ** Logging through zap *)

Record zap_Logger := { logger_name : string }.

Inductive Level := DebugLevel | InfoLevel | WarnLevel | ErrorLevel.

(** ** The module's collaborators *)

(** What the module uses from code outside src/: the host file system
    reached through package os ([FS] is its state), the contents [LS] of a
    lock system of golang.org/x/net/webdav, caddy's replacer, and
    [path.Dir]. *)
Class Host := {
  FS : Type;
  LS : Type;
  Replacer : Type;
  (* ReplaceAll(input, empty) of caddy.Replacer *)
  ReplaceAll : Replacer -> string -> string -> string;
  (* the contents of the lock system webdav.NewMemLS() returns *)
  NewMemLS : LS;
  os_Stat : string -> FS -> res FileInfo;
  os_MkdirAll : string -> Z -> FS -> option error * FS;
  (* webdav.Dir(root).Stat(ctx, name) *)
  Dir_Stat : string -> string -> FS -> res FileInfo;
  path_Dir : string -> string
}.

Section Module.

Context `{Host}.

(** [http.Request] behind the pointer [r]: the fields the module reads or
    writes. The replacer is the value stored in the request context under
    [caddy.ReplacerCtxKey]. *)
Record Request := {
  Method : string;
  URL_Path : string;
  Header : http_Header;
  Body : string;
  ctx_Replacer : Replacer
}.

Definition set_Method (m : string) (r : Request) : Request :=
  {| Method := m; URL_Path := URL_Path r; Header := Header r;
     Body := Body r; ctx_Replacer := ctx_Replacer r |}.

Definition set_Header (h : http_Header) (r : Request) : Request :=
  {| Method := Method r; URL_Path := URL_Path r; Header := h;
     Body := Body r; ctx_Replacer := ctx_Replacer r |}.

Inductive zap_Field :=
| zap_Error (e : error)
| zap_Object (key : string) (req : Request).

Record LogEntry := {
  log_logger : zap_Logger;
  log_level : Level;
  log_msg : string;
  log_fields : list zap_Field
}.

(** Lock systems are heap objects ([webdav.NewMemLS] returns a pointer); a
    [WebDAV] value holds a reference into the heap. *)
Definition loc := nat.

(** Everything a request can read or change outside its own arguments. *)
Record World := {
  w_fs : FS;
  w_locks : gmap loc LS;
  w_log : list LogEntry;
  w_resp : Response
}.

Definition set_fs (fs : FS) (s : World) : World :=
  {| w_fs := fs; w_locks := w_locks s; w_log := w_log s; w_resp := w_resp s |}.

Definition set_locks (l : gmap loc LS) (s : World) : World :=
  {| w_fs := w_fs s; w_locks := l; w_log := w_log s; w_resp := w_resp s |}.

Definition set_log (l : list LogEntry) (s : World) : World :=
  {| w_fs := w_fs s; w_locks := w_locks s; w_log := l; w_resp := w_resp s |}.

Definition set_resp (c : Response) (s : World) : World :=
  {| w_fs := w_fs s; w_locks := w_locks s; w_log := w_log s; w_resp := c |}.

(** [Error(msg, fields...)] on a [zap.Logger]. *)
Definition logger_Error (l : zap_Logger) (msg : string)
    (fields : list zap_Field) (s : World) : World :=
  set_log (w_log s ++ [{| log_logger := l; log_level := ErrorLevel;
                          log_msg := msg; log_fields := fields |}]) s.

(** [type WebDAV struct]. [lockSystem] is [nil] until [Provision]. *)
Record WebDAV := {
  Root : string;
  Prefix : string;
  lockSystem : option loc;
  logger : zap_Logger
}.

(** [caddy.Context], as far as [Provision] uses it. *)
Record caddy_Context := { ctx_Logger : zap_Logger }.

(** [func (wd *WebDAV) Provision(ctx caddy.Context) error]: the receiver
    is a pointer, so the updated struct is returned next to the error.
    [webdav.NewMemLS()] allocates the lock system at a fresh address. *)
Definition Provision (ctx : caddy_Context) (wd : WebDAV) (s : World)
    : option error * WebDAV * World :=
  let l := fresh (dom (w_locks s)) in
  let s := set_locks (<[l := NewMemLS]> (w_locks s)) s in
  let root := if String.eqb (Root wd) "" then "{http.vars.root}"%string
              else Root wd in
  (None,
   {| Root := root; Prefix := Prefix wd;
      lockSystem := Some l; logger := ctx_Logger ctx |},
   s).

(** [webdav.Handler]: the struct literal of lines 90-102 fills all four
    fields. [FileSystem] is [webdav.Dir(root)], a string. *)
Record Handler := {
  h_Prefix : string;
  h_FileSystem : string;
  h_LockSystem : option loc;
  h_Logger : Request -> option error -> World -> World
}.

(** [ServeHTTP(w, r)] of [webdav.Handler]: it may write through [w], change
    the request it is given, the file system and the lock systems, and call
    [Logger]. *)
Class WebDAVPackage := {
  webdav_Handler_ServeHTTP :
    Handler -> ResponseWriter -> Request -> World -> Request * World
}.

(** [caddyhttp.Handler], the next handler of the middleware chain. *)
Definition caddyhttp_Handler : Type :=
  ResponseWriter -> Request -> World -> option error * Request * World.

(** The closure stored in [Logger] (lines 94-101). *)
Definition wdHandler_Logger (wd : WebDAV)
    (req : Request) (err : option error) (s : World) : World :=
  match err with
  | Some e =>
      logger_Error (logger wd) "internal handler error"
        [zap_Error e; zap_Object "request" req] s
  | None => s
  end.

(** Where [ServeHTTP] stands when it leaves lines 86-136: it has either
    returned an error (line 129) or is about to call
    [wdHandler.ServeHTTP(w, r)] (line 138) with these arguments. *)
Inductive Prepared :=
| Return (err : error) (s : World)
| Delegate (h : Handler) (w : ResponseWriter) (r : Request) (s : World).

Definition ServeHTTP_prepare (wd : WebDAV) (w : ResponseWriter)
    (r : Request) (s : World) : Prepared :=
  let repl := ctx_Replacer r in
  let root := ReplaceAll repl (Root wd) "." in
  let prefix := ReplaceAll repl (Prefix wd) "" in
  let wdHandler :=
    {| h_Prefix := prefix;
       h_FileSystem := root;
       h_LockSystem := lockSystem wd;
       h_Logger := wdHandler_Logger wd |} in
  let branch : (error * World) + (Request * World) :=
    if String.eqb (Method r) "GET" || String.eqb (Method r) "HEAD" then
      match Dir_Stat (h_FileSystem wdHandler) (URL_Path r) (w_fs s) with
      | Ok info =>
          if fi_IsDir info then
            let r := set_Method "PROPFIND" r in
            let r :=
              if String.eqb (Header_Get (Header r) "Depth") "" then
                set_Header (Header_Add "Depth" "1" (Header r)) r
              else r in
            inr (r, s)
          else inr (r, s)
      | Err _ => inr (r, s)
      end
    else if String.eqb (Method r) "PUT" || String.eqb (Method r) "POST" then
      let dirPath := path_Dir (URL_Path r) in
      let err := res_err (os_Stat (root +:+ dirPath) (w_fs s)) in
      if os_IsNotExist err then
        match os_MkdirAll (root +:+ dirPath) perm_0755 (w_fs s) with
        | (Some err, fs) =>
            let s := set_fs fs s in
            let s := logger_Error (logger wd) "error creating directories"
                       [zap_Error err] s in
            let s := set_resp (http_Error w "Error creating directories"
                                 StatusInternalServerError (w_resp s)) s in
            inl (err, s)
        | (None, fs) => inr (r, set_fs fs s)
        end
      else inr (r, s)
    else inr (r, s) in
  match branch with
  | inl (err, s) => Return err s
  | inr (r, s) =>
      let w := if String.eqb (Method r) "HEAD"
               then emptyBodyResponseWriter w else w in
      Delegate wdHandler w r s
  end.

(** [func (wd WebDAV) ServeHTTP(w, r, next) error]. The request is a
    pointer, so its final state is returned with the error. *)
Definition ServeHTTP `{!WebDAVPackage} (wd : WebDAV) (w : ResponseWriter)
    (r : Request) (next : caddyhttp_Handler) (s : World)
    : option error * Request * World :=
  match ServeHTTP_prepare wd w r s with
  | Return err s => (Some err, r, s)
  | Delegate wdHandler w r s =>
      let '(r, s) := webdav_Handler_ServeHTTP wdHandler w r s in
      (None, r, s)
  end.

(** Names for what lines 87-102 and 121-123 compute: the root, the
    handler value and the parent directory of the request path. *)
Definition root_of (wd : WebDAV) (r : Request) : string :=
  ReplaceAll (ctx_Replacer r) (Root wd) ".".

Definition wdHandler_of (wd : WebDAV) (r : Request) : Handler :=
  {| h_Prefix := ReplaceAll (ctx_Replacer r) (Prefix wd) "";
     h_FileSystem := root_of wd r;
     h_LockSystem := lockSystem wd;
     h_Logger := wdHandler_Logger wd |}.

Definition parent_of (wd : WebDAV) (r : Request) : string :=
  root_of wd r +:+ path_Dir (URL_Path r).

(** The request as lines 114-117 leave it. *)
Definition as_propfind (r : Request) : Request :=
  let r := set_Method "PROPFIND" r in
  if String.eqb (Header_Get (Header r) "Depth") "" then
    set_Header (Header_Add "Depth" "1" (Header r)) r
  else r.

(** The module with another prefix configured. *)
Definition with_Prefix (p : string) (wd : WebDAV) : WebDAV :=
  {| Root := Root wd; Prefix := p; lockSystem := lockSystem wd;
     logger := logger wd |}.

End Module.

(** ** Package path of the Go standard library *)

Module GoPath.

Definition is_slash (c : ascii) : bool := Ascii.eqb c "/".

Definition rooted (p : string) : bool :=
  match p with
  | String c _ => is_slash c
  | EmptyString => false
  end.

(** [strings.Split(p, "/")]. *)
Fixpoint elements (p : string) : list string :=
  match p with
  | EmptyString => [EmptyString]
  | String c rest =>
      if is_slash c then EmptyString :: elements rest
      else match elements rest with
           | x :: xs => String c x :: xs
           | [] => [String c EmptyString]
           end
  end.

(** The rules of [path.Clean] on the elements of a path, left to right:
    empty and [.] elements go, [..] removes the element before it, and
    [..] at the start of a rooted path goes. [stack] is reversed. *)
Fixpoint clean_elements (is_rooted : bool) (stack elems : list string)
    : list string :=
  match elems with
  | [] => rev stack
  | e :: rest =>
      if String.eqb e "" || String.eqb e "." then
        clean_elements is_rooted stack rest
      else if String.eqb e ".." then
        match stack with
        | top :: below =>
            if String.eqb top ".." then
              clean_elements is_rooted (e :: stack) rest
            else clean_elements is_rooted below rest
        | [] =>
            if is_rooted then clean_elements is_rooted [] rest
            else clean_elements is_rooted [e] rest
        end
      else clean_elements is_rooted (e :: stack) rest
  end.

Definition Clean (p : string) : string :=
  let out :=
    (if rooted p then "/" else "")
      +:+ String.concat "/" (clean_elements (rooted p) [] (elements p)) in
  if String.eqb out "" then "."%string else out.

Fixpoint has_slash (p : string) : bool :=
  match p with
  | EmptyString => false
  | String c rest => is_slash c || has_slash rest
  end.

(** [path.Split]: the path up to and including its last slash, and the
    rest. *)
Fixpoint Split (p : string) : string * string :=
  match p with
  | EmptyString => (EmptyString, EmptyString)
  | String c rest =>
      if has_slash rest then
        let '(d, f) := Split rest in (String c d, f)
      else if is_slash c then (String c EmptyString, rest)
      else (EmptyString, p)
  end.

Definition Dir (p : string) : string := Clean (fst (Split p)).

Definition Base (p : string) : string := snd (Split (Clean p)).

(** [strings.TrimPrefix], telling whether the prefix was there. *)
Fixpoint CutPrefix (pre s : string) : option string :=
  match pre, s with
  | EmptyString, _ => Some s
  | String a pre', String b s' =>
      if Ascii.eqb a b then CutPrefix pre' s' else None
  | String _ _, EmptyString => None
  end.

End GoPath.

(** ** A reference host

    An in-memory file system behind package os, [webdav.Dir], a replacer
    and a small WebDAV handler, so that the module can be run on concrete
    requests. The general theorems below do not depend on it. *)

Module Ref.

Inductive Node :=
| NDir (mode : Z)
| NFile (content : string).

(** Nodes are keyed by their cleaned absolute path. *)
Record MemFS := { cwd : string; nodes : gmap string Node }.

Definition absolute (fs : MemFS) (name : string) : string :=
  if GoPath.rooted name then GoPath.Clean name
  else GoPath.Clean (cwd fs +:+ "/" +:+ name).

Definition names (p : string) : list string :=
  filter (fun e => e <> EmptyString) (GoPath.elements p).

Definition child (cur e : string) : string :=
  if String.eqb cur "/" then cur +:+ e else cur +:+ "/" +:+ e.

(** Path resolution: every directory on the way has to exist. *)
Fixpoint walk (m : gmap string Node) (cur : string) (elems : list string)
    : Node + Errno :=
  match m !! cur with
  | None => inr ENOENT
  | Some n =>
      match elems with
      | [] => inl n
      | e :: rest =>
          match n with
          | NDir _ => walk m (child cur e) rest
          | NFile _ => inr ENOTDIR
          end
      end
  end.

Definition Stat (name : string) (fs : MemFS) : res FileInfo :=
  if String.eqb name "" then Err (PathError "stat" name ENOENT)
  else
    match walk (nodes fs) "/" (names (absolute fs name)) with
    | inl (NDir _) =>
        Ok {| fi_Name := GoPath.Base name; fi_Size := 0; fi_IsDir := true |}
    | inl (NFile c) =>
        Ok {| fi_Name := GoPath.Base name;
              fi_Size := Z.of_nat (String.length c); fi_IsDir := false |}
    | inr e => Err (PathError "stat" name e)
    end.

(** The owner's write bit of a directory mode. *)
Definition writable (mode : Z) : bool := Z.testbit mode 7.

(** [os.MkdirAll]: going down from the root, make every directory that is
    missing; a file on the way or a directory that may not be written
    stops it, and what was made so far stays. *)
Fixpoint mkdir_all (perm : Z) (m : gmap string Node) (cur : string)
    (elems : list string) : option (string * Errno) * gmap string Node :=
  match m !! cur with
  | None => (Some (cur, ENOENT), m)
  | Some (NFile _) => (Some (cur, ENOTDIR), m)
  | Some (NDir mode) =>
      match elems with
      | [] => (None, m)
      | e :: rest =>
          match m !! child cur e with
          | Some _ => mkdir_all perm m (child cur e) rest
          | None =>
              if writable mode then
                mkdir_all perm (<[child cur e := NDir perm]> m)
                  (child cur e) rest
              else (Some (child cur e, EACCES), m)
          end
      end
  end.

Definition MkdirAll (name : string) (perm : Z) (fs : MemFS)
    : option error * MemFS :=
  match mkdir_all perm (nodes fs) "/" (names (absolute fs name)) with
  | (None, m) => (None, {| cwd := cwd fs; nodes := m |})
  | (Some (p, e), m) =>
      (Some (PathError "mkdir" p e), {| cwd := cwd fs; nodes := m |})
  end.

(** [webdav.Dir]: [slashClean], [resolve] and [Stat]. *)
Definition slashClean (name : string) : string :=
  GoPath.Clean (if GoPath.rooted name then name else "/" +:+ name).

Fixpoint has_NUL (s : string) : bool :=
  match s with
  | EmptyString => false
  | String c rest => Ascii.eqb c "000" || has_NUL rest
  end.

Definition Dir_resolve (d name : string) : string :=
  if has_NUL name then EmptyString
  else
    let dir := if String.eqb d "" then "."%string else d in
    GoPath.Clean (dir +:+ "/" +:+ slashClean name).

Definition webdav_Dir_Stat (d name : string) (fs : MemFS) : res FileInfo :=
  if String.eqb (Dir_resolve d name) "" then Err ErrNotExist
  else Stat (Dir_resolve d name) fs.

(** A replacer is the table of its placeholder values; an input is either
    one placeholder [{key}] or a literal. A placeholder that is unknown or
    empty is replaced by [empty]. *)
Definition placeholder (input : string) : option string :=
  match input with
  | String "{" rest =>
      match rev (list_ascii_of_string rest) with
      | "}"%char :: key => Some (string_of_list_ascii (rev key))
      | _ => None
      end
  | _ => None
  end.

Definition replace_all (repl : gmap string string) (input empty : string)
    : string :=
  match placeholder input with
  | Some key =>
      match repl !! key with
      | Some v => if String.eqb v "" then empty else v
      | None => empty
      end
  | None => input
  end.

#[export] Instance host : Host := {|
  FS := MemFS;
  LS := list string;
  Replacer := gmap string string;
  ReplaceAll := replace_all;
  NewMemLS := [];
  os_Stat := Stat;
  os_MkdirAll := MkdirAll;
  Dir_Stat := webdav_Dir_Stat;
  path_Dir := GoPath.Dir
|}.

(** A recorder in the way of [httptest.ResponseRecorder]: headers can be
    changed until the status is written, the first [Write] writes status
    200, a second [WriteHeader] is ignored, and every [Write] is kept,
    whatever the method of the request. It shows what the module and the
    handler hand to the writer; what the server sends for a HEAD request
    is [server_response]. *)
Definition set_status (code : Z) (c : Response) : Response :=
  match resp_status c with
  | None => {| resp_status := Some code; resp_header := resp_header c;
               resp_body := resp_body c |}
  | Some _ => c
  end.

Definition http_response : ResponseWriter :=
  {| rw_Header := fun f c =>
       match resp_status c with
       | None => {| resp_status := None; resp_header := f (resp_header c);
                    resp_body := resp_body c |}
       | Some _ => c
       end;
     rw_Write := fun data c =>
       let c := set_status 200 c in
       ((Z.of_nat (String.length data), None),
        {| resp_status := resp_status c; resp_header := resp_header c;
           resp_body := resp_body c +:+ data |});
     rw_WriteHeader := set_status |}.

Definition no_response : Response :=
  {| resp_status := None; resp_header := ∅; resp_body := "" |}.

(** A stand-in for the handler of golang.org/x/net/webdav with its
    dispatch on the method, its prefix stripping and its closing status
    line and [Logger] call; of the methods it knows GET, HEAD, POST, PUT,
    PROPFIND and LOCK. A lock system is the list of the locked paths. *)
Definition StatusText (code : Z) : string :=
  if code =? 200 then "OK"
  else if code =? 201 then "Created"
  else if code =? 400 then "Bad Request"
  else if code =? 404 then "Not Found"
  else if code =? 405 then "Method Not Allowed"
  else if code =? 409 then "Conflict"
  else if code =? 423 then "Locked"
  else if code =? 500 then "Internal Server Error"
  else "".

Definition stripPrefix (h : Handler) (p : string) : option string :=
  if String.eqb (h_Prefix h) "" then Some p
  else
    GoPath.CutPrefix (h_Prefix h) p.

Definition errPrefixMismatch : error :=
  errors_New "webdav: prefix mismatch".

Definition is_under (dir p : string) : bool :=
  match GoPath.CutPrefix (child dir "") p with
  | Some rest => negb (String.eqb rest "")
  | None => false
  end.

(** The resources a PROPFIND of the given depth reports. *)
Definition listing (fs : MemFS) (p depth : string) : list string :=
  let all := (map_to_list (nodes fs)).*1 in
  if String.eqb depth "0" then [p]
  else if String.eqb depth "1" then
    p :: filter (fun k => is_under p k = true ∧ GoPath.Dir k = p) all
  else p :: filter (fun k => is_under p k = true) all.

Definition handleGetHeadPost (h : Handler) (w : ResponseWriter)
    (r : Request) (s : World) : Z * option error * World :=
  match stripPrefix h (URL_Path r) with
  | None => (404, Some errPrefixMismatch, s)
  | Some reqPath =>
      let name := Dir_resolve (h_FileSystem h) reqPath in
      match walk (nodes (w_fs s)) "/" (names (absolute (w_fs s) name)) with
      | inr e => (404, Some (PathError "open" name e), s)
      | inl (NDir _) => (405, None, s)
      | inl (NFile content) =>
          let c := rw_Header w
                     (Header_Set "Content-Type" "application/octet-stream")
                     (w_resp s) in
          let c := rw_WriteHeader w 200 c in
          let c := if String.eqb (Method r) "HEAD" then c
                   else snd (rw_Write w content c) in
          (0, None, set_resp c s)
      end
  end.

Definition handlePut (h : Handler) (r : Request) (s : World)
    : Z * option error * World :=
  match stripPrefix h (URL_Path r) with
  | None => (404, Some errPrefixMismatch, s)
  | Some reqPath =>
      let name := absolute (w_fs s) (Dir_resolve (h_FileSystem h) reqPath) in
      match walk (nodes (w_fs s)) "/" (names (GoPath.Dir name)) with
      | inl (NDir _) =>
          match (nodes (w_fs s)) !! name with
          | Some (NDir _) => (404, Some (PathError "open" name EIO), s)
          | _ =>
              (201, None,
               set_fs {| cwd := cwd (w_fs s);
                         nodes := <[name := NFile (Body r)]> (nodes (w_fs s)) |}
                 s)
          end
      | inl (NFile _) => (404, Some (PathError "open" name ENOTDIR), s)
      | inr ENOENT => (409, Some (PathError "open" name ENOENT), s)
      | inr e => (404, Some (PathError "open" name e), s)
      end
  end.

Definition handlePropfind (h : Handler) (w : ResponseWriter)
    (r : Request) (s : World) : Z * option error * World :=
  match stripPrefix h (URL_Path r) with
  | None => (404, Some errPrefixMismatch, s)
  | Some reqPath =>
      let name := absolute (w_fs s) (Dir_resolve (h_FileSystem h) reqPath) in
      match walk (nodes (w_fs s)) "/" (names name) with
      | inr e => (404, Some (PathError "stat" name e), s)
      | inl _ =>
          let c := rw_WriteHeader w 207 (w_resp s) in
          let body := String.concat ";"
                        (listing (w_fs s) name (Header_Get (Header r) "Depth")) in
          (0, None, set_resp (snd (rw_Write w body c)) s)
      end
  end.

Definition handleLock (h : Handler) (r : Request) (s : World)
    : Z * option error * World :=
  match stripPrefix h (URL_Path r), h_LockSystem h with
  | None, _ => (404, Some errPrefixMismatch, s)
  | Some reqPath, Some l =>
      match w_locks s !! l with
      | Some held =>
          if bool_decide (reqPath ∈ held) then
            (423, Some (errors_New "webdav: locked"), s)
          else (200, None, set_locks (<[l := reqPath :: held]> (w_locks s)) s)
      | None => (500, Some (errors_New "webdav: no lock system"), s)
      end
  | Some _, None => (500, Some (errors_New "webdav: no lock system"), s)
  end.

Definition Handler_ServeHTTP (h : Handler) (w : ResponseWriter)
    (r : Request) (s : World) : Request * World :=
  let '(status, err, s) :=
    match h_LockSystem h with
    | None => (500, Some (errors_New "webdav: no lock system"), s)
    | Some _ =>
        if String.eqb (Method r) "GET" || String.eqb (Method r) "HEAD"
           || String.eqb (Method r) "POST"
        then handleGetHeadPost h w r s
        else if String.eqb (Method r) "PUT" then handlePut h r s
        else if String.eqb (Method r) "PROPFIND" then handlePropfind h w r s
        else if String.eqb (Method r) "LOCK" then handleLock h r s
        else (400, Some (errors_New "webdav: unsupported method"), s)
    end in
  let s :=
    if status =? 0 then s
    else
      let c := rw_WriteHeader w status (w_resp s) in
      set_resp (snd (rw_Write w (StatusText status) c)) s in
  (r, h_Logger h r err s).

#[export] Instance package : WebDAVPackage :=
  {| webdav_Handler_ServeHTTP := Handler_ServeHTTP |}.

(** The module as the examples configure it, provisioned, serving [/srv]:
    a directory [/srv/docs] with a file and a subdirectory in it, a file
    [/srv/notes.txt] and a directory [/srv/ro] nobody may write to. *)
Definition dir_mode : Z := perm_0755.

Definition srv : MemFS :=
  {| cwd := "/";
     nodes := list_to_map
       [("/", NDir dir_mode); ("/srv", NDir dir_mode);
        ("/srv/docs", NDir dir_mode);
        ("/srv/docs/a.txt", NFile "alpha");
        ("/srv/docs/old", NDir dir_mode);
        ("/srv/docs/old/b.txt", NFile "beta");
        ("/srv/notes.txt", NFile "remember");
        ("/srv/ro", NDir (5 * 64 + 5 * 8 + 5))]%string |}.

Definition world0 : World :=
  {| w_fs := srv; w_locks := ∅; w_log := []; w_resp := no_response |}.

Definition module0 (prefix : string) : WebDAV :=
  {| Root := "/srv"; Prefix := prefix; lockSystem := None;
     logger := {| logger_name := "" |} |}.

Definition context0 : caddy_Context :=
  {| ctx_Logger := {| logger_name := "http.handlers.webdav" |} |}.

Definition provisioned (prefix : string) : WebDAV * World :=
  let '(_, wd, s) := Provision context0 (module0 prefix) world0 in (wd, s).

Definition wd (prefix : string) : WebDAV := (provisioned prefix).1.

Definition start : World := (provisioned "").2.

Definition request (method url : string) (hdr : http_Header) (body : string)
    : Request :=
  {| Method := method; URL_Path := url; Header := hdr; Body := body;
     ctx_Replacer := (∅ : gmap string string) |}.

Definition no_next : caddyhttp_Handler :=
  fun _ r s => (None, r, s).

(** What a stat of [/srv/docs] returns. *)
Definition docs_info : FileInfo :=
  {| fi_Name := "docs"; fi_Size := 0; fi_IsDir := true |}.

(** Serve one request with the provisioned module, recording the
    response. *)
Definition serve (prefix : string) (r : Request)
    : option error * Request * World :=
  ServeHTTP (wd prefix) http_response r no_next start.

End Ref.

(** ** The lock manager *)

Module LockManager.

(** Modelled from the spec: the depth of a lock, zero or infinite, of the
    Lock Manager that src/ does not contain. *)
Inductive Depth := DepthZero | DepthInfinity.

(** Modelled from the spec: the scope of a lock. *)
Inductive Scope := Exclusive | Shared.

(** Modelled from the spec: the Lock of section 3, which src/ only reaches
    through [webdav.NewMemLS()]: an opaque token, a root path, a depth, a
    scope, an owner and an absolute expiry. Paths are lists of segments. *)
Record Lock := {
  token : nat;
  root : list string;
  depth : Depth;
  scope : Scope;
  owner : string;
  expiry : Z
}.

(** Modelled from the spec: the lock table the Lock Manager owns, with the
    counter the globally unique tokens are drawn from. *)
Record Table := { locks : list Lock; next_token : nat }.

(** Modelled from the spec: the table at server start. *)
Definition empty : Table := {| locks := []; next_token := 0 |}.

Fixpoint is_prefix (a p : list string) : bool :=
  match a, p with
  | [], _ => true
  | x :: a', y :: p' => String.eqb x y && is_prefix a' p'
  | _ :: _, [] => false
  end.

(** Modelled from the spec: depth zero is the resource only, depth
    infinite is the resource and all its descendants. *)
Definition covers (l : Lock) (p : list string) : bool :=
  match depth l with
  | DepthZero => bool_decide (root l = p)
  | DepthInfinity => is_prefix (root l) p
  end.

(** Modelled from the spec: a lock whose expiry has passed is treated as
    absent. *)
Definition live (now : Z) (l : Lock) : bool := now <? expiry l.

Definition is_exclusive (l : Lock) : bool :=
  match scope l with Exclusive => true | Shared => false end.

(** Modelled from the spec: one lock lies in the depth range of the other
    (same path, ancestor or descendant per depth semantics). *)
Definition overlaps (l1 l2 : Lock) : bool :=
  covers l1 (root l2) || covers l2 (root l1).

(** Modelled from the spec: any exclusive lock conflicts with anything in
    its range, two shared locks never conflict (the contract of [Create]
    in section 4.1). *)
Definition conflicts (l1 l2 : Lock) : bool :=
  overlaps l1 l2 && (is_exclusive l1 || is_exclusive l2).

(** Modelled from the spec: expired locks may be reaped on access. *)
Definition reap (now : Z) (t : Table) : Table :=
  {| locks := List.filter (live now) (locks t); next_token := next_token t |}.

(** Modelled from the spec: the two failures of the Lock Manager. *)
Inductive LockError := ErrLocked | ErrNoSuchLock.

(** Modelled from the spec: [Create(path, depth, scope, owner, timeout)]
    gives a token, or [ErrLocked] when a lock that holds conflicts. *)
Definition Create (now : Z) (p : list string) (d : Depth) (sc : Scope)
    (o : string) (timeout : Z) (t : Table) : (nat + LockError) * Table :=
  let t := reap now t in
  let l := {| token := next_token t; root := p; depth := d; scope := sc;
              owner := o; expiry := now + timeout |} in
  if existsb (conflicts l) (locks t) then (inr ErrLocked, t)
  else (inl (token l),
        {| locks := l :: locks t; next_token := S (next_token t) |}).

Definition has_token (tok : nat) (l : Lock) : bool := Nat.eqb (token l) tok.

(** Modelled from the spec: [Refresh(token, newTimeout)]. *)
Definition Refresh (now : Z) (tok : nat) (timeout : Z) (t : Table)
    : option LockError * Table :=
  let t := reap now t in
  if existsb (has_token tok) (locks t) then
    (None,
     {| locks :=
          List.map (fun l =>
            if has_token tok l then
              {| token := token l; root := root l; depth := depth l;
                 scope := scope l; owner := owner l;
                 expiry := now + timeout |}
            else l) (locks t);
        next_token := next_token t |})
  else (Some ErrNoSuchLock, t).

(** Modelled from the spec: [Release(token)]. *)
Definition Release (now : Z) (tok : nat) (t : Table)
    : option LockError * Table :=
  let t := reap now t in
  if existsb (has_token tok) (locks t) then
    (None,
     {| locks := List.filter (fun l => negb (has_token tok l)) (locks t);
        next_token := next_token t |})
  else (Some ErrNoSuchLock, t).

(** Modelled from the spec: a lock holds on a path at a time when it is in
    the table, has not expired and covers the path. *)
Definition holds_on (t : Table) (now : Z) (p : list string) (l : Lock)
    : Prop :=
  In l (locks t) /\ live now l = true /\ covers l p = true.

(** The tables the three mutating operations can produce. *)
Inductive reachable : Table -> Prop :=
| reach_empty : reachable empty
| reach_Create now p d sc o timeout t :
    reachable t -> reachable (snd (Create now p d sc o timeout t))
| reach_Refresh now tok timeout t :
    reachable t -> reachable (snd (Refresh now tok timeout t))
| reach_Release now tok t :
    reachable t -> reachable (snd (Release now tok t)).

(** No two entries of the table conflict. *)
Definition pairwise_compatible (t : Table) : Prop :=
  ForallOrdPairs (fun a b => conflicts a b = false) (locks t).

(** A table with an exclusive lock on [/a], of infinite depth, and a
    shared lock on [/b]. *)
Definition sample_table : Table :=
  snd (Create 0 ["b"%string] DepthZero Shared "bob" 60
         (snd (Create 0 ["a"%string] DepthInfinity Exclusive "ann" 60 empty))).

End LockManager.

(** ** The claim about the Depth header, as worded *)

(** C1 as the spec words it: the Depth header is extended by [Depth: 1]
    when the request carries none, and kept unchanged when it carries
    one. *)
Definition depth_header_kept_when_present `{Host} : Prop :=
  forall wd w r s info,
    Method r = "GET"%string \/ Method r = "HEAD"%string ->
    Dir_Stat (root_of wd r) (URL_Path r) (w_fs s) = Ok info ->
    fi_IsDir info = true ->
    exists h w' r',
      ServeHTTP_prepare wd w r s = Delegate h w' r' s /\
      Method r' = "PROPFIND"%string /\
      (Header r !! "Depth"%string = None ->
         Header r' = Header_Add "Depth" "1" (Header r)) /\
      (Header r !! "Depth"%string <> None -> Header r' = Header r).

(** * What the module does with a request *)

Section Properties.

Context `{Host}.

Lemma eqb_other (a b : string) : a <> b -> String.eqb a b = false.
Proof. intros Hne. now apply String.eqb_neq. Qed.

Ltac method_is Hm :=
  unfold ServeHTTP, ServeHTTP_prepare, parent_of, root_of, wdHandler_of in *;
  rewrite ?Hm; cbn [String.eqb Ascii.eqb Bool.eqb orb andb].

(** Requests of any other method go to the handler as they came. *)
Lemma prepare_other_method wd w r s :
  Method r <> "GET"%string -> Method r <> "HEAD"%string ->
  Method r <> "PUT"%string -> Method r <> "POST"%string ->
  ServeHTTP_prepare wd w r s = Delegate (wdHandler_of wd r) w r s.
Proof.
  intros Hg Hh Hp Hq. unfold ServeHTTP_prepare.
  rewrite (eqb_other _ _ Hg), (eqb_other _ _ Hh), (eqb_other _ _ Hp),
    (eqb_other _ _ Hq). cbn. now rewrite (eqb_other _ _ Hh).
Qed.

(** Lines 119-132 when the stat of the parent does not report
    not-exist. *)
Lemma prepare_put_parent_there wd w r s :
  Method r = "PUT"%string \/ Method r = "POST"%string ->
  os_IsNotExist (res_err (os_Stat (parent_of wd r) (w_fs s))) = false ->
  ServeHTTP_prepare wd w r s = Delegate (wdHandler_of wd r) w r s.
Proof.
  intros [Hm | Hm] Hstat; method_is Hm; rewrite Hstat, Hm; reflexivity.
Qed.

(** Lines 119-132 when the parent is reported missing. *)
Lemma prepare_put_parent_missing wd w r s :
  Method r = "PUT"%string \/ Method r = "POST"%string ->
  os_IsNotExist (res_err (os_Stat (parent_of wd r) (w_fs s))) = true ->
  ServeHTTP_prepare wd w r s =
    match os_MkdirAll (parent_of wd r) perm_0755 (w_fs s) with
    | (Some err, fs) =>
        Return err
          (set_resp (http_Error w "Error creating directories"
                       StatusInternalServerError (w_resp s))
             (logger_Error (logger wd) "error creating directories"
                [zap_Error err] (set_fs fs s)))
    | (None, fs) => Delegate (wdHandler_of wd r) w r (set_fs fs s)
    end.
Proof.
  intros [Hm | Hm] Hstat; method_is Hm; rewrite Hstat;
    destruct (os_MkdirAll _ _ _) as [[err|] fs]; cbn; rewrite ?Hm; reflexivity.
Qed.

(** Lines 111-118 when the stat finds a directory: the method is
    rewritten first, so the test of line 134 sees PROPFIND and the writer
    stays as it came. *)
Lemma prepare_get_directory wd w r s info :
  Method r = "GET"%string \/ Method r = "HEAD"%string ->
  Dir_Stat (root_of wd r) (URL_Path r) (w_fs s) = Ok info ->
  fi_IsDir info = true ->
  ServeHTTP_prepare wd w r s =
    Delegate (wdHandler_of wd r) w
      (if String.eqb (Header_Get (Header r) "Depth") ""
       then set_Header (Header_Add "Depth" "1" (Header r))
              (set_Method "PROPFIND" r)
       else set_Method "PROPFIND" r) s.
Proof.
  intros [Hm | Hm] Hstat Hdir; method_is Hm; cbn [h_FileSystem];
    rewrite Hstat, Hdir; cbn [set_Method Header];
    destruct (String.eqb (Header_Get (Header r) "Depth") ""); reflexivity.
Qed.

(** Lines 111-118 when the stat fails or finds something that is not a
    directory: the request is untouched, and a HEAD gets the writer that
    drops the body. *)
Lemma prepare_get_not_directory wd w r s :
  Method r = "GET"%string \/ Method r = "HEAD"%string ->
  (forall info, Dir_Stat (root_of wd r) (URL_Path r) (w_fs s) = Ok info ->
                fi_IsDir info = false) ->
  ServeHTTP_prepare wd w r s =
    Delegate (wdHandler_of wd r)
      (if String.eqb (Method r) "HEAD" then emptyBodyResponseWriter w else w)
      r s.
Proof.
  intros [Hm | Hm] Hstat; method_is Hm; cbn [h_FileSystem];
    (destruct (Dir_Stat _ _ _) as [info | e];
     [rewrite (Hstat info eq_refl) |]); rewrite Hm; reflexivity.
Qed.

(** X10. Whatever is done through [emptyBodyResponseWriter] around a
    writer whose header methods leave the body alone, the body stays what
    it was. *)
Lemma wrapped_writer_keeps_body w calls c :
  keeps_body w ->
  resp_body (run_calls (emptyBodyResponseWriter w) calls c) = resp_body c.
Proof.
  intros [Hh Hs]. unfold run_calls. revert c.
  induction calls as [| k calls IH]; intros c; cbn [fold_left];
    [reflexivity |].
  rewrite IH. destruct k; cbn; auto.
Qed.

Lemma Header_Add_absent (key value : string) (h : http_Header) :
  h !! key = None -> Header_Add key value h = <[key := [value]]> h.
Proof. intros Hk. unfold Header_Add. now rewrite Hk. Qed.

Lemma Header_Get_absent (key : string) (h : http_Header) :
  h !! key = None -> Header_Get h key = ""%string.
Proof. intros Hk. unfold Header_Get. now rewrite Hk. Qed.

(** C1 (amended). A GET or HEAD whose path the file system of the handler
    stats as a directory is delegated with the method PROPFIND, the same
    path and body. If the request carries no Depth header the header
    [Depth: 1] is added; a Depth header whose first value is not empty is
    kept as it is. A GET without a Depth header is thereby served exactly
    as the PROPFIND with [Depth: 1] on that path. *)
Theorem get_on_collection_is_propfind `{!WebDAVPackage}
    wd w r next s info :
  Method r = "GET"%string \/ Method r = "HEAD"%string ->
  Dir_Stat (root_of wd r) (URL_Path r) (w_fs s) = Ok info ->
  fi_IsDir info = true ->
  exists w' r',
    ServeHTTP_prepare wd w r s = Delegate (wdHandler_of wd r) w' r' s /\
    Method r' = "PROPFIND"%string /\
    URL_Path r' = URL_Path r /\ Body r' = Body r /\
    (Header_Get (Header r) "Depth" <> ""%string -> Header r' = Header r) /\
    (Header r !! "Depth"%string = None ->
       Header r' = <["Depth"%string := ["1"%string]]> (Header r) /\
       (Method r = "GET"%string ->
          ServeHTTP wd w r next s =
          ServeHTTP wd w
            (set_Header (<["Depth"%string := ["1"%string]]> (Header r))
               (set_Method "PROPFIND" r)) next s)).
Proof.
  intros Hm Hstat Hdir.
  pose proof (prepare_get_directory wd w r s info Hm Hstat Hdir) as Hprep.
  destruct (String.eqb_spec (Header_Get (Header r) "Depth") "") as [He | He].
  - exists w, (set_Header (Header_Add "Depth" "1" (Header r))
                 (set_Method "PROPFIND" r)).
    split; [exact Hprep |].
    cbn [Method URL_Path Body Header set_Header set_Method].
    do 3 (split; [reflexivity |]). split; [congruence |].
    intros Habs. rewrite <- (Header_Add_absent "Depth" "1" _ Habs).
    split; [reflexivity |]. intros _.
    unfold ServeHTTP. rewrite Hprep.
    rewrite prepare_other_method by (cbn; congruence). reflexivity.
  - exists w, (set_Method "PROPFIND" r).
    split; [exact Hprep |].
    cbn [Method URL_Path Body Header set_Header set_Method].
    do 4 (split; [reflexivity |]).
    intros Habs. apply Header_Get_absent in Habs. congruence.
Qed.

(** C3. For a PUT or POST whose parent directory (root followed by the
    directory part of the request path) is reported missing, the module
    calls [os.MkdirAll] on it with mode 0755 before anything else: if that
    succeeds the handler is run on the file system it left, with the
    request and writer as they came, and [ServeHTTP] returns nil; if it
    fails the handler is not reached and the file system is the one
    [MkdirAll] left. *)
Theorem put_creates_missing_parents `{!WebDAVPackage} wd w r next s e :
  Method r = "PUT"%string \/ Method r = "POST"%string ->
  os_Stat (parent_of wd r) (w_fs s) = Err e ->
  os_IsNotExist (Some e) = true ->
  match os_MkdirAll (parent_of wd r) perm_0755 (w_fs s) with
  | (None, fs) =>
      ServeHTTP_prepare wd w r s =
        Delegate (wdHandler_of wd r) w r (set_fs fs s) /\
      ServeHTTP wd w r next s =
        (let '(r', s') :=
           webdav_Handler_ServeHTTP (wdHandler_of wd r) w r (set_fs fs s) in
         (None, r', s'))
  | (Some err, fs) =>
      exists s', ServeHTTP_prepare wd w r s = Return err s' /\ w_fs s' = fs
  end.
Proof.
  intros Hm Hstat Hne.
  assert (Hmiss : os_IsNotExist
            (res_err (os_Stat (parent_of wd r) (w_fs s))) = true)
    by now rewrite Hstat.
  pose proof (prepare_put_parent_missing wd w r s Hm Hmiss) as Hprep.
  unfold ServeHTTP. rewrite Hprep.
  destruct (os_MkdirAll _ _ _) as [[err |] fs].
  - eexists. split; reflexivity.
  - split; reflexivity.
Qed.

(** C5. When the implicit creation of the parent directory of a PUT or
    POST fails, [ServeHTTP] returns the error of [os.MkdirAll]; the
    response is [http.Error] with the fixed text "Error creating
    directories" and status 500, whatever the root, the path and the
    error are; one error entry carrying the error is logged; and the
    result is the same for every WebDAV handler, which is not run. *)
Theorem mkdir_failure_answers_500 wd w r next s err fs :
  Method r = "PUT"%string \/ Method r = "POST"%string ->
  os_IsNotExist (res_err (os_Stat (parent_of wd r) (w_fs s))) = true ->
  os_MkdirAll (parent_of wd r) perm_0755 (w_fs s) = (Some err, fs) ->
  forall pkg : WebDAVPackage,
    @ServeHTTP _ pkg wd w r next s =
      (Some err, r,
       {| w_fs := fs;
          w_locks := w_locks s;
          w_log := w_log s ++
            [{| log_logger := logger wd; log_level := ErrorLevel;
                log_msg := "error creating directories";
                log_fields := [zap_Error err] |}];
          w_resp := http_Error w "Error creating directories" 500
                      (w_resp s) |}).
Proof.
  intros Hm Hmiss Hmk pkg. unfold ServeHTTP.
  rewrite (prepare_put_parent_missing wd w r s Hm Hmiss), Hmk.
  reflexivity.
Qed.

(** C6. The [Logger] the module installs in the handler changes nothing
    but the log: called with nil it leaves the world as it is, called
    with an error it appends one entry of level error with that error and
    the request; the response, the file system and the lock systems are
    the same in both cases. *)
Theorem installed_logger_only_logs wd w r s h w' r' s' :
  ServeHTTP_prepare wd w r s = Delegate h w' r' s' ->
  forall req err s0,
    w_resp (h_Logger h req err s0) = w_resp s0 /\
    w_fs (h_Logger h req err s0) = w_fs s0 /\
    w_locks (h_Logger h req err s0) = w_locks s0 /\
    (err = None -> h_Logger h req err s0 = s0) /\
    (forall e, err = Some e ->
       w_log (h_Logger h req err s0) =
         w_log s0 ++
           [{| log_logger := logger wd; log_level := ErrorLevel;
               log_msg := "internal handler error";
               log_fields := [zap_Error e; zap_Object "request" req] |}]).
Proof.
  intros Hprep req err s0.
  assert (Hh : h_Logger h = wdHandler_Logger wd).
  { unfold ServeHTTP_prepare in Hprep.
    repeat match type of Hprep with
           | context [match ?x with _ => _ end] => destruct x
           end; inversion Hprep; reflexivity. }
  rewrite Hh. destruct err as [e |]; cbn; repeat split; congruence.
Qed.

(** The two ways out of lines 86-136: an error after a failed
    [MkdirAll], or the call of the handler the module built, in a world
    that differs from the one found by the file system at most. *)
Lemma prepare_cases wd w r s :
  (exists err fs,
     ServeHTTP_prepare wd w r s =
       Return err
         (set_resp (http_Error w "Error creating directories"
                      StatusInternalServerError (w_resp s))
            (logger_Error (logger wd) "error creating directories"
               [zap_Error err] (set_fs fs s)))) \/
  (exists w' r' fs,
     ServeHTTP_prepare wd w r s =
       Delegate (wdHandler_of wd r) w' r' (set_fs fs s)).
Proof.
  assert (Hsame : set_fs (w_fs s) s = s) by now destruct s.
  destruct (String.eqb_spec (Method r) "PUT") as [Hput | Hput];
    [| destruct (String.eqb_spec (Method r) "POST") as [Hpost | Hpost]].
  1, 2: destruct (os_IsNotExist
                    (res_err (os_Stat (parent_of wd r) (w_fs s)))) eqn:Hstat;
    [ rewrite (prepare_put_parent_missing wd w r s) by auto;
      destruct (os_MkdirAll _ _ _) as [[err |] fs]; eauto
    | right; exists w, r, (w_fs s); rewrite Hsame;
      apply prepare_put_parent_there; auto ].
  right.
  destruct (String.eqb_spec (Method r) "GET") as [Hget | Hget];
    [| destruct (String.eqb_spec (Method r) "HEAD") as [Hhead | Hhead]].
  3: { exists w, r, (w_fs s). rewrite Hsame.
       apply prepare_other_method; auto. }
  all: destruct (Dir_Stat (root_of wd r) (URL_Path r) (w_fs s))
         as [info | e] eqn:Hstat;
    [ destruct (fi_IsDir info) eqn:Hdir;
      [ eexists _, _, (w_fs s); rewrite Hsame;
        eapply prepare_get_directory; eauto
      | eexists _, _, (w_fs s); rewrite Hsame;
        eapply prepare_get_not_directory; auto; congruence ]
    | eexists _, _, (w_fs s); rewrite Hsame;
      eapply prepare_get_not_directory; auto; congruence ].
Qed.

(** Before it delegates or returns, the module leaves the lock systems
    alone, and the handler it builds carries the reference of [wd]. *)
Lemma prepare_keeps_locks wd w r s :
  match ServeHTTP_prepare wd w r s with
  | Return _ s' => w_locks s' = w_locks s
  | Delegate h _ _ s' =>
      h_LockSystem h = lockSystem wd /\ w_locks s' = w_locks s
  end.
Proof.
  destruct (prepare_cases wd w r s) as [(err & fs & ->) | (w' & r' & fs & ->)];
    cbn; auto.
Qed.

(** X8. The configured prefix reaches the [Prefix] field of the handler and
    nothing else: the stat of lines 112-113, the directories of lines
    121-126, the request, the writer and the world handed on are the same
    for every prefix. *)
Lemma prepare_does_not_use_prefix wd p w r s :
  match ServeHTTP_prepare wd w r s,
        ServeHTTP_prepare (with_Prefix p wd) w r s with
  | Return e1 s1, Return e2 s2 => e1 = e2 /\ s1 = s2
  | Delegate h1 w1 r1 s1, Delegate h2 w2 r2 s2 =>
      h_FileSystem h1 = h_FileSystem h2 /\ w1 = w2 /\ r1 = r2 /\ s1 = s2
  | _, _ => False
  end.
Proof.
  unfold ServeHTTP_prepare.
  cbn [Root Prefix lockSystem logger with_Prefix h_FileSystem]. cbv zeta.
  match goal with
  | |- context [match ?b with inl _ => _ | inr _ => _ end] =>
      destruct b as [[e s'] | [r' s']]
  end; auto.
Qed.

(** The lock systems [ServeHTTP] leaves are those its handler left, or,
    when it returns early, those it found. *)
Lemma ServeHTTP_locks `{!WebDAVPackage} wd w r next s :
  w_locks (ServeHTTP wd w r next s).2 =
    match ServeHTTP_prepare wd w r s with
    | Return _ _ => w_locks s
    | Delegate h w' r' s' => w_locks (webdav_Handler_ServeHTTP h w' r' s').2
    end.
Proof.
  unfold ServeHTTP. pose proof (prepare_keeps_locks wd w r s) as Hk.
  destruct (ServeHTTP_prepare wd w r s) as [e s' | h w' r' s'].
  - exact Hk.
  - now destruct (webdav_Handler_ServeHTTP h w' r' s').
Qed.

(** C7. [Provision] allocates one new lock system, at an address no
    earlier lock system has, and stores its reference in the module; it
    starts as [webdav.NewMemLS()] makes it, with nothing of an earlier run.
    Every request the provisioned module serves hands that same reference
    to the handler, and the module itself changes no lock system, neither
    before nor after the handler runs: [ServeHTTP] leaves the lock systems
    as its handler left them. So the state a request's handler leaves in
    the module's lock system is the state the handler of the next request
    finds under the same reference. *)
Theorem lock_system_provisioned_once_and_shared ctx wd0 s0 :
  let '(err, wd, s1) := Provision ctx wd0 s0 in
  err = None /\
  (exists l,
     lockSystem wd = Some l /\ (l ∉ dom (w_locks s0)) /\
     w_locks s1 = <[l := NewMemLS]> (w_locks s0) /\
     w_locks s1 !! l = Some NewMemLS) /\
  (forall w r s,
     match ServeHTTP_prepare wd w r s with
     | Return _ s' => w_locks s' = w_locks s
     | Delegate h _ _ s' =>
         h_LockSystem h = lockSystem wd /\ w_locks s' = w_locks s
     end) /\
  (forall (pkg : WebDAVPackage) w r next s,
     match ServeHTTP_prepare wd w r s with
     | Return _ _ => w_locks (ServeHTTP wd w r next s).2 = w_locks s
     | Delegate h w' r' s' =>
         w_locks (ServeHTTP wd w r next s).2 =
           w_locks (webdav_Handler_ServeHTTP h w' r' s').2
     end) /\
  (forall (pkg : WebDAVPackage) w1 r1 next s h1 w1' r1' s1' l x,
     ServeHTTP_prepare wd w1 r1 s = Delegate h1 w1' r1' s1' ->
     lockSystem wd = Some l ->
     w_locks (webdav_Handler_ServeHTTP h1 w1' r1' s1').2 !! l = Some x ->
     forall w2 r2,
       match ServeHTTP_prepare wd w2 r2 (ServeHTTP wd w1 r1 next s).2 with
       | Return _ s2 => w_locks s2 !! l = Some x
       | Delegate h2 _ _ s2 =>
           h_LockSystem h2 = Some l /\ w_locks s2 !! l = Some x
       end).
Proof.
  unfold Provision. cbv beta iota zeta.
  set (wd := Build_WebDAV _ _ _ _).
  split; [reflexivity |]. split; [| split; [| split]].
  - exists (fresh (dom (w_locks s0))). cbn.
    split; [reflexivity |]. split; [apply is_fresh |].
    split; [reflexivity |]. apply lookup_insert_eq.
  - intros w r s. apply prepare_keeps_locks.
  - intros pkg w r next s. rewrite ServeHTTP_locks.
    now destruct (ServeHTTP_prepare wd w r s).
  - intros pkg w1 r1 next s h1 w1' r1' s1' l x Hprep Hl Hx w2 r2.
    assert (Hleft : w_locks (ServeHTTP wd w1 r1 next s).2 !! l = Some x)
      by (rewrite ServeHTTP_locks, Hprep; exact Hx).
    pose proof (prepare_keeps_locks wd w2 r2 (ServeHTTP wd w1 r1 next s).2)
      as Hk.
    destruct (ServeHTTP_prepare wd w2 r2 _) as [e s2 | h2 w2' r2' s2].
    + now rewrite Hk.
    + destruct Hk as [Hh Hs]. rewrite Hs. split; [| exact Hleft].
      rewrite Hh. exact Hl.
Qed.

(** C9. The result of [ServeHTTP] does not depend on the next handler,
    which is never run; the error it returns is nil, except for a PUT or
    POST whose parent is reported missing, where it is whatever
    [os.MkdirAll] returned (nil when that succeeded). *)
Theorem next_handler_never_runs `{!WebDAVPackage} wd w r s :
  (forall next next' : caddyhttp_Handler,
     ServeHTTP wd w r next s = ServeHTTP wd w r next' s) /\
  (forall next,
     (ServeHTTP wd w r next s).1.1 =
       if (String.eqb (Method r) "PUT" || String.eqb (Method r) "POST")
          && os_IsNotExist (res_err (os_Stat (parent_of wd r) (w_fs s)))
       then (os_MkdirAll (parent_of wd r) perm_0755 (w_fs s)).1
       else None).
Proof.
  split; [reflexivity |]. intros next.
  assert (Hnil : forall h w' r' s',
            ServeHTTP_prepare wd w r s = Delegate h w' r' s' ->
            (ServeHTTP wd w r next s).1.1 = None).
  { intros h w' r' s' Hprep. unfold ServeHTTP. rewrite Hprep.
    now destruct (webdav_Handler_ServeHTTP _ _ _ _). }
  destruct (String.eqb_spec (Method r) "PUT") as [Hput | Hput];
    [| destruct (String.eqb_spec (Method r) "POST") as [Hpost | Hpost]].
  1, 2: cbn [orb andb];
    destruct (os_IsNotExist _) eqn:Hstat;
    [ unfold ServeHTTP;
      rewrite (prepare_put_parent_missing wd w r s) by auto;
      destruct (os_MkdirAll _ _ _) as [[err |] fs]; cbn;
      [reflexivity | now destruct (webdav_Handler_ServeHTTP _ _ _ _)]
    | eapply Hnil, prepare_put_parent_there; auto ].
  cbn [orb andb].
  destruct (String.eqb_spec (Method r) "GET") as [Hget | Hget];
    [| destruct (String.eqb_spec (Method r) "HEAD") as [Hhead | Hhead]].
  3: { eapply Hnil, prepare_other_method; auto. }
  all: destruct (Dir_Stat (root_of wd r) (URL_Path r) (w_fs s))
         as [info | e] eqn:Hstat;
    [ destruct (fi_IsDir info) eqn:Hdir;
      [ eapply Hnil, prepare_get_directory; eauto
      | eapply Hnil, prepare_get_not_directory; auto; congruence ]
    | eapply Hnil, prepare_get_not_directory; auto; congruence ].
Qed.

(** C10. For a PUT or POST whose parent path exists (as a directory or as
    a file), or whose stat fails with an error that is not not-exist, the
    module hands the request to the handler in the world it found: same
    file system, log, response and lock systems, same request, same
    writer. *)
Theorem put_with_parent_changes_nothing wd w r s :
  Method r = "PUT"%string \/ Method r = "POST"%string ->
  (exists info, os_Stat (parent_of wd r) (w_fs s) = Ok info) \/
  (exists e, os_Stat (parent_of wd r) (w_fs s) = Err e /\
             os_IsNotExist (Some e) = false) ->
  ServeHTTP_prepare wd w r s = Delegate (wdHandler_of wd r) w r s /\
  forall (pkg : WebDAVPackage) next,
    ServeHTTP wd w r next s =
      (let '(r', s') := webdav_Handler_ServeHTTP (wdHandler_of wd r) w r s in
       (None, r', s')).
Proof.
  intros Hm Hstat.
  assert (Hprep : ServeHTTP_prepare wd w r s
                  = Delegate (wdHandler_of wd r) w r s).
  { apply prepare_put_parent_there; [exact Hm |].
    destruct Hstat as [[info ->] | (e & -> & He)]; [reflexivity | exact He]. }
  split; [exact Hprep |]. intros pkg next. unfold ServeHTTP.
  now rewrite Hprep.
Qed.

End Properties.

(** * The module on the reference host *)

Module Examples.

Import Ref.

(** A GET of the directory [/docs] without a Depth header. *)
Lemma get_on_collection_witness :
  let r := request "GET" "/docs" ∅ "" in
  Dir_Stat (root_of (wd "") r) (URL_Path r) (w_fs start) = Ok docs_info /\
  serve "" r =
    serve "" (request "PROPFIND" "/docs" {["Depth"%string := ["1"%string]]} "").
Proof.
  set (r := request "GET" "/docs" ∅ "").
  assert (Hstat : Dir_Stat (root_of (wd "") r) (URL_Path r) (w_fs start)
                  = Ok docs_info) by (vm_compute; reflexivity).
  split; [exact Hstat |].
  destruct (get_on_collection_is_propfind (wd "") http_response r no_next
              start docs_info (or_introl eq_refl) Hstat eq_refl)
    as (w' & r' & _ & _ & _ & _ & _ & Hsame).
  destruct (Hsame eq_refl) as [_ Hserve].
  exact (Hserve eq_refl).
Defined.

(** C1, counterexample. A GET of the directory [/docs] that carries a
    Depth header with an empty value: the header is present, and the
    request handed to the handler has the value 1 appended to it, so the
    header is not kept unchanged. *)
Lemma empty_depth_header_is_extended :
  let r := request "GET" "/docs" {["Depth"%string := [""%string]]} "" in
  Header r !! "Depth"%string = Some [""%string] /\
  (exists r',
     ServeHTTP_prepare (wd "") http_response r start =
       Delegate (wdHandler_of (wd "") r) http_response r' start /\
     Header r' !! "Depth"%string = Some [""%string; "1"%string]) /\
  ~ depth_header_kept_when_present.
Proof.
  set (r := request "GET" "/docs" {["Depth"%string := [""%string]]} "").
  assert (Hprep : ServeHTTP_prepare (wd "") http_response r start =
            Delegate (wdHandler_of (wd "") r) http_response
              (set_Header (Header_Add "Depth" "1" (Header r))
                 (set_Method "PROPFIND" r)) start).
  { apply (prepare_get_directory (wd "") http_response r start docs_info);
      [left; reflexivity | vm_compute; reflexivity | reflexivity]. }
  split; [reflexivity |]. split.
  - eexists. split; [exact Hprep |]. vm_compute. reflexivity.
  - intros Hclaim.
    destruct (Hclaim (wd "") http_response r start docs_info)
      as (h & w' & r' & Hprep' & _ & _ & Hkept);
      [left; reflexivity | vm_compute; reflexivity | reflexivity |].
    rewrite Hprep in Hprep'. injection Hprep' as _ _ <-.
    assert (Hpresent : Header r !! "Depth"%string <> None) by discriminate.
    apply Hkept in Hpresent.
    apply (f_equal (fun h => h !! "Depth"%string)) in Hpresent.
    vm_compute in Hpresent. discriminate Hpresent.
Qed.

(** What a recorder sees of a HEAD of the directory [/docs]: line 114 has
    made the method PROPFIND before line 134 tests it for HEAD, so the
    handler gets the writer unwrapped and the listing it writes is handed
    to the recorder. A HEAD of a missing file goes through
    [emptyBodyResponseWriter]: the status text the handler writes is
    dropped before it reaches the recorder. What the server sends to the
    client of a HEAD request is another matter, settled further down. *)
Theorem head_on_collection_gets_a_body :
  let r := request "HEAD" "/docs" ∅ "" in
  (exists r',
     ServeHTTP_prepare (wd "") http_response r start =
       Delegate (wdHandler_of (wd "") r) http_response r' start /\
     Method r' = "PROPFIND"%string) /\
  resp_status (w_resp (serve "" r).2) = Some 207 /\
  resp_body (w_resp (serve "" r).2) =
    "/srv/docs;/srv/docs/old;/srv/docs/a.txt"%string /\
  resp_status (w_resp (serve "" (request "HEAD" "/missing" ∅ "")).2)
    = Some 404 /\
  resp_body (w_resp (serve "" (request "HEAD" "/missing" ∅ "")).2)
    = ""%string.
Proof.
  split; [| vm_compute; repeat split; reflexivity].
  eexists. split.
  - apply (prepare_get_directory (wd "") http_response _ start docs_info);
      [right; reflexivity | vm_compute; reflexivity | reflexivity].
  - reflexivity.
Qed.

(** A PUT of [/x/y.txt] when [/srv/x] does not exist. *)
Lemma put_creates_missing_parents_witness :
  let r := request "PUT" "/x/y.txt" ∅ "hello" in
  let made := (os_MkdirAll (parent_of (wd "") r) perm_0755 (w_fs start)).2 in
  os_Stat (parent_of (wd "") r) (w_fs start)
    = Err (PathError "stat" "/srv/x" ENOENT) /\
  nodes made !! "/srv/x"%string = Some (NDir perm_0755) /\
  ServeHTTP_prepare (wd "") http_response r start =
    Delegate (wdHandler_of (wd "") r) http_response r (set_fs made start) /\
  resp_status (w_resp (serve "" r).2) = Some 201 /\
  nodes (w_fs (serve "" r).2) !! "/srv/x/y.txt"%string = Some (NFile "hello").
Proof.
  intros r made.
  assert (Hstat : os_Stat (parent_of (wd "") r) (w_fs start)
                  = Err (PathError "stat" "/srv/x" ENOENT))
    by (vm_compute; reflexivity).
  assert (Hmk : os_MkdirAll (parent_of (wd "") r) perm_0755 (w_fs start)
                = (None, made)) by (vm_compute; reflexivity).
  pose proof (put_creates_missing_parents (wd "") http_response r no_next
                start _ (or_introl eq_refl) Hstat eq_refl) as Hthm.
  rewrite Hmk in Hthm. destruct Hthm as [Hprep _].
  split; [exact Hstat |]. split; [vm_compute; reflexivity |].
  split; [exact Hprep |]. vm_compute. split; reflexivity.
Defined.

(** C4, evaluated. The module is configured with the prefix [/dav]. For a
    GET of [/dav/docs] the handler strips the prefix and resolves
    [/srv/docs], a directory; the module has statted [/srv/dav/docs],
    found nothing and left the method GET, and the answer is 405. For a
    PUT of [/dav/x/y.txt] the module creates [/srv/dav/x], the handler
    looks for [/srv/x] and answers 409. Without a prefix the same GET is
    rewritten to PROPFIND. *)
Theorem module_checks_ignore_the_prefix :
  let r := request "GET" "/dav/docs" ∅ "" in
  let p := request "PUT" "/dav/x/y.txt" ∅ "hello" in
  stripPrefix (wdHandler_of (wd "/dav") r) (URL_Path r) = Some "/docs"%string /\
  Dir_Stat (root_of (wd "/dav") r) "/docs" (w_fs start) = Ok docs_info /\
  Dir_Stat (root_of (wd "/dav") r) (URL_Path r) (w_fs start)
    = Err (PathError "stat" "/srv/dav/docs" ENOENT) /\
  ServeHTTP_prepare (wd "/dav") http_response r start =
    Delegate (wdHandler_of (wd "/dav") r) http_response r start /\
  resp_status (w_resp (serve "/dav" r).2) = Some 405 /\
  Method (serve "" (request "GET" "/docs" ∅ "")).1.2 = "PROPFIND"%string /\
  nodes (w_fs (serve "/dav" p).2) !! "/srv/dav/x"%string
    = Some (NDir perm_0755) /\
  nodes (w_fs (serve "/dav" p).2) !! "/srv/x"%string = None /\
  resp_status (w_resp (serve "/dav" p).2) = Some 409.
Proof.
  cbv zeta. split; [reflexivity |]. split; [vm_compute; reflexivity |].
  split; [vm_compute; reflexivity |]. split.
  - apply prepare_get_not_directory; [left; reflexivity |].
    intros info Hinfo. vm_compute in Hinfo. discriminate Hinfo.
  - vm_compute. repeat split; reflexivity.
Qed.

(** A PUT below the directory [/srv/ro], which may not be written. *)
Lemma mkdir_failure_witness :
  let r := request "PUT" "/ro/x/y.txt" ∅ "hello" in
  let err := PathError "mkdir" "/srv/ro/x" EACCES in
  os_MkdirAll (parent_of (wd "") r) perm_0755 (w_fs start)
    = (Some err, w_fs start) /\
  (serve "" r).1 = (Some err, r) /\
  resp_status (w_resp (serve "" r).2) = Some 500 /\
  resp_body (w_resp (serve "" r).2) =
    ("Error creating directories" +:+ String "010"%char EmptyString) /\
  List.length (w_log (serve "" r).2) = 1%nat.
Proof.
  intros r err.
  assert (Hmk : os_MkdirAll (parent_of (wd "") r) perm_0755 (w_fs start)
                = (Some err, w_fs start)) by (vm_compute; reflexivity).
  split; [exact Hmk |].
  unfold serve.
  rewrite (mkdir_failure_answers_500 (wd "") http_response r no_next start
             err (w_fs start) (or_introl eq_refl) eq_refl Hmk package).
  vm_compute. repeat split; reflexivity.
Defined.

(** The logger installed for a GET of [/notes.txt]. *)
Lemma installed_logger_witness :
  let r := request "GET" "/notes.txt" ∅ "" in
  let h := wdHandler_of (wd "") r in
  ServeHTTP_prepare (wd "") http_response r start =
    Delegate h http_response r start /\
  h_Logger h r None start = start /\
  w_resp (h_Logger h r (Some ErrNotExist) start) = w_resp start /\
  List.length (w_log (h_Logger h r (Some ErrNotExist) start)) = 1%nat.
Proof.
  intros r h.
  assert (Hprep : ServeHTTP_prepare (wd "") http_response r start =
                  Delegate h http_response r start).
  { apply prepare_get_not_directory; [left; reflexivity |].
    intros info Hinfo. vm_compute in Hinfo. now injection Hinfo as <-. }
  split; [exact Hprep |].
  destruct (installed_logger_only_logs (wd "") http_response r start
              h http_response r start Hprep r None start)
    as (_ & _ & _ & Hnil & _).
  destruct (installed_logger_only_logs (wd "") http_response r start
              h http_response r start Hprep r (Some ErrNotExist) start)
    as (Hresp & _ & _ & _ & Hlog).
  split; [exact (Hnil eq_refl) |]. split; [exact Hresp |].
  rewrite (Hlog ErrNotExist eq_refl). reflexivity.
Defined.

(** A PUT into the existing directory [/srv/docs]. *)
Lemma put_with_parent_witness :
  let r := request "PUT" "/docs/new.txt" ∅ "hello" in
  os_Stat (parent_of (wd "") r) (w_fs start) = Ok docs_info /\
  ServeHTTP_prepare (wd "") http_response r start =
    Delegate (wdHandler_of (wd "") r) http_response r start.
Proof.
  intros r.
  assert (Hstat : os_Stat (parent_of (wd "") r) (w_fs start) = Ok docs_info)
    by (vm_compute; reflexivity).
  split; [exact Hstat |].
  exact (proj1 (put_with_parent_changes_nothing (wd "") http_response r start
                  (or_introl eq_refl)
                  (or_introl (ex_intro _ docs_info Hstat)))).
Defined.

(** A POST below the regular file [/srv/notes.txt]: the stat of the
    parent fails with ENOTDIR, which is not not-exist, and nothing is
    created. *)
Example post_below_a_file :
  let r := request "POST" "/notes.txt/a/b" ∅ "" in
  os_Stat (parent_of (wd "") r) (w_fs start)
    = Err (PathError "stat" "/srv/notes.txt/a" ENOTDIR) /\
  ServeHTTP_prepare (wd "") http_response r start =
    Delegate (wdHandler_of (wd "") r) http_response r start.
Proof.
  split; [vm_compute; reflexivity |].
  apply prepare_put_parent_there; [right; reflexivity |].
  vm_compute. reflexivity.
Qed.

(** The recorder keeps the body in its header methods, so no handler can
    put a body behind [emptyBodyResponseWriter]. *)
Example http_response_keeps_body : keeps_body http_response.
Proof.
  split; intros ? c; cbn; unfold set_status;
    now destruct (resp_status c).
Qed.

(** A module left without a root is provisioned with the placeholder
    [{http.vars.root}], which a replacer that does not know it turns into
    the current directory. *)
Example default_root :
  let '(_, m, _) :=
    Provision context0
      {| Root := ""; Prefix := ""; lockSystem := None;
         logger := {| logger_name := "" |} |} world0 in
  Root m = "{http.vars.root}"%string /\
  root_of m (request "GET" "/" ∅ "") = "."%string.
Proof. vm_compute. split; reflexivity. Qed.

(** Two LOCK requests for the same path, one after the other, served by
    the same provisioned module: the second finds the lock of the first.
    After provisioning again the lock system is empty. *)
Example lock_seen_by_the_next_request :
  let r := request "LOCK" "/notes.txt" ∅ "" in
  let s1 := set_resp no_response (serve "" r).2 in
  resp_status (w_resp (serve "" r).2) = Some 200 /\
  resp_status (w_resp (ServeHTTP (wd "") http_response r no_next s1).2)
    = Some 423 /\
  w_locks s1 !! 0%nat = Some ["/notes.txt"%string] /\
  w_locks (provisioned "").2 !! 0%nat = Some [].
Proof. vm_compute. repeat split; reflexivity. Qed.

End Examples.

(** * The invariant of the lock manager *)

Module LockInvariant.

Import LockManager.

Lemma conflicts_sym a b : conflicts a b = conflicts b a.
Proof.
  unfold conflicts, overlaps.
  now rewrite (orb_comm (covers a (root b))),
    (orb_comm (is_exclusive a)).
Qed.

Lemma is_prefix_refl p : is_prefix p p = true.
Proof.
  induction p as [| x p IH]; cbn; [reflexivity |].
  now rewrite String.eqb_refl.
Qed.

(** Two ancestors of one path lie on one branch. *)
Lemma is_prefix_comparable a b p :
  is_prefix a p = true -> is_prefix b p = true ->
  is_prefix a b = true \/ is_prefix b a = true.
Proof.
  revert a b. induction p as [| z p IH]; intros [| x a] [| y b]; cbn;
    auto; try discriminate.
  intros [Hx Ha]%andb_prop [Hy Hb]%andb_prop.
  apply String.eqb_eq in Hx, Hy. subst x y. rewrite String.eqb_refl. cbn.
  now apply IH.
Qed.

(** Locks that cover one path lie in each other's range. *)
Lemma cover_same_path_overlap l1 l2 p :
  covers l1 p = true -> covers l2 p = true -> overlaps l1 l2 = true.
Proof.
  unfold overlaps, covers.
  destruct (depth l1) eqn:D1, (depth l2) eqn:D2; intros H1 H2.
  - apply bool_decide_eq_true in H1, H2. apply orb_true_iff. left.
    apply bool_decide_eq_true. congruence.
  - apply bool_decide_eq_true in H1. subst p. rewrite H2. apply orb_true_r.
  - apply bool_decide_eq_true in H2. subst p. now rewrite H1.
  - apply orb_true_iff.
    destruct (is_prefix_comparable _ _ _ H1 H2); auto.
Qed.

Lemma compatible_filter f (l : list Lock) :
  ForallOrdPairs (fun a b => conflicts a b = false) l ->
  ForallOrdPairs (fun a b => conflicts a b = false) (List.filter f l).
Proof.
  induction 1 as [| a l Ha Hl IH]; cbn; [constructor |].
  destruct (f a); [| exact IH].
  constructor; [| exact IH].
  rewrite List.Forall_forall in *. intros x [Hx _]%filter_In. now apply Ha.
Qed.

Lemma compatible_map (g : Lock -> Lock) (l : list Lock) :
  (forall a b, conflicts (g a) (g b) = conflicts a b) ->
  ForallOrdPairs (fun a b => conflicts a b = false) l ->
  ForallOrdPairs (fun a b => conflicts a b = false) (List.map g l).
Proof.
  intros Hg. induction 1 as [| a l Ha Hl IH]; cbn; constructor; [| exact IH].
  rewrite List.Forall_forall in *. intros x (y & <- & Hy)%in_map_iff.
  rewrite Hg. now apply Ha.
Qed.

Lemma reap_compatible now t :
  pairwise_compatible t -> pairwise_compatible (reap now t).
Proof. apply compatible_filter. Qed.

Lemma Create_compatible now p d sc o timeout t :
  pairwise_compatible t ->
  pairwise_compatible (snd (Create now p d sc o timeout t)).
Proof.
  intros Ht%(reap_compatible now). unfold Create.
  destruct (existsb _ _) eqn:Hex; cbn [snd]; [exact Ht |].
  constructor; [| exact Ht].
  rewrite List.Forall_forall. intros x Hx.
  destruct (conflicts _ x) eqn:Hc; [| reflexivity].
  assert (existsb
            (conflicts {| token := next_token (reap now t); root := p;
                          depth := d; scope := sc; owner := o;
                          expiry := now + timeout |})
            (locks (reap now t)) = true)
    by (apply existsb_exists; eauto).
  congruence.
Qed.

Lemma Refresh_compatible now tok timeout t :
  pairwise_compatible t ->
  pairwise_compatible (snd (Refresh now tok timeout t)).
Proof.
  intros Ht%(reap_compatible now). unfold Refresh.
  destruct (existsb _ _); cbn [snd]; [| exact Ht].
  apply compatible_map; [| exact Ht].
  intros a b. now destruct (has_token tok a), (has_token tok b).
Qed.

Lemma Release_compatible now tok t :
  pairwise_compatible t ->
  pairwise_compatible (snd (Release now tok t)).
Proof.
  intros Ht%(reap_compatible now). unfold Release.
  destruct (existsb _ _); cbn [snd]; [| exact Ht].
  now apply compatible_filter.
Qed.

Lemma reachable_compatible t : reachable t -> pairwise_compatible t.
Proof.
  induction 1.
  - constructor.
  - now apply Create_compatible.
  - now apply Refresh_compatible.
  - now apply Release_compatible.
Qed.

(** A lock held exclusively on a path is the only lock held on it. *)
Lemma exclusive_lock_alone t now p l1 l2 :
  pairwise_compatible t ->
  holds_on t now p l1 -> holds_on t now p l2 ->
  scope l1 = Exclusive -> l1 = l2.
Proof.
  intros Ht (In1 & _ & C1) (In2 & _ & C2) Hex.
  pose proof (cover_same_path_overlap _ _ _ C1 C2) as Hov.
  assert (Hc : conflicts l1 l2 = true).
  { unfold conflicts, is_exclusive. now rewrite Hov, Hex. }
  destruct (ForallOrdPairs_In Ht _ _ In1 In2) as [Heq | [Hn | Hn]];
    [exact Heq | congruence | rewrite conflicts_sym in Hn; congruence].
Qed.

Lemma filter_live_twice now (l : list Lock) :
  List.filter (live now) (List.filter (live now) l)
  = List.filter (live now) l.
Proof.
  induction l as [| a l IH]; cbn; [reflexivity |].
  destruct (live now a) eqn:Ha; cbn; [| exact IH].
  now rewrite Ha, IH.
Qed.

Lemma existsb_pointwise (f g : Lock -> bool) (l : list Lock) :
  (forall x, f x = g x) -> existsb f l = existsb g l.
Proof.
  intros Hfg. induction l as [| a l IH]; cbn; [reflexivity |].
  now rewrite Hfg, IH.
Qed.

(** [Create] spelled out on the reaped table. *)
Lemma Create_unfold now p d sc o timeout t :
  Create now p d sc o timeout t =
    let l := {| token := next_token t; root := p; depth := d; scope := sc;
                owner := o; expiry := now + timeout |} in
    if existsb (conflicts l) (List.filter (live now) (locks t))
    then (inr ErrLocked, reap now t)
    else (inl (next_token t),
          {| locks := l :: List.filter (live now) (locks t);
             next_token := S (next_token t) |}).
Proof. reflexivity. Qed.

(** After a shared lock was granted on a path, a second shared lock of
    the same depth is granted on it too, and both hold. *)
Lemma shared_locks_coexist t now p d o1 o2 to1 to2 tok1 t1 :
  0 < to1 -> 0 < to2 ->
  Create now p d Shared o1 to1 t = (inl tok1, t1) ->
  exists tok2 t2 l1 l2,
    Create now p d Shared o2 to2 t1 = (inl tok2, t2) /\
    tok1 <> tok2 /\
    holds_on t2 now p l1 /\ holds_on t2 now p l2 /\
    token l1 = tok1 /\ token l2 = tok2 /\
    scope l1 = Shared /\ scope l2 = Shared.
Proof.
  intros H1 H2. rewrite Create_unfold. cbv zeta.
  set (n := next_token t).
  set (held := List.filter (live now) (locks t)).
  set (l1 := {| token := n; root := p; depth := d; scope := Shared;
                owner := o1; expiry := now + to1 |}).
  set (l2 := {| token := S n; root := p; depth := d; scope := Shared;
                owner := o2; expiry := now + to2 |}).
  destruct (existsb (conflicts l1) held) eqn:Hfree; [discriminate |].
  intros [= <- <-].
  assert (Hl1 : live now l1 = true) by (apply Z.ltb_lt; cbn; lia).
  assert (Hl2 : live now l2 = true) by (apply Z.ltb_lt; cbn; lia).
  assert (Hcov : forall l, root l = p -> depth l = d -> covers l p = true).
  { intros l Hr Hd. unfold covers. rewrite Hr, Hd. destruct d;
      [now apply bool_decide_eq_true | apply is_prefix_refl]. }
  assert (Hsame : forall x, conflicts l2 x = conflicts l1 x) by reflexivity.
  exists (S n), {| locks := l2 :: l1 :: held; next_token := S (S n) |}, l1, l2.
  split.
  - rewrite Create_unfold. cbn [locks next_token List.filter].
    assert (Hheld : List.filter (live now) held = held)
      by apply filter_live_twice.
    rewrite Hl1, !Hheld. fold l2. cbn [existsb]. rewrite Hsame.
    replace (conflicts l1 l1) with false
      by (unfold conflicts; cbn; now rewrite andb_false_r).
    cbn [orb]. rewrite (existsb_pointwise _ _ held Hsame).
    rewrite Hfree. reflexivity.
  - repeat split; cbn [locks token scope]; auto using in_eq, in_cons;
      try lia; now apply Hcov.
Qed.

(** C8. In every lock table the Lock Manager can reach, two exclusive
    locks that hold on the same path at the same time are one and the same
    lock; and when a shared lock has been granted on a path, a second
    shared lock on that path is granted as well and both hold. *)
Theorem one_exclusive_lock_per_path t :
  reachable t ->
  (forall now p l1 l2,
     holds_on t now p l1 -> holds_on t now p l2 ->
     scope l1 = Exclusive -> scope l2 = Exclusive -> l1 = l2) /\
  (forall now p d o1 o2 to1 to2 tok1 t1,
     0 < to1 -> 0 < to2 ->
     Create now p d Shared o1 to1 t = (inl tok1, t1) ->
     exists tok2 t2 l1 l2,
       Create now p d Shared o2 to2 t1 = (inl tok2, t2) /\
       tok1 <> tok2 /\
       holds_on t2 now p l1 /\ holds_on t2 now p l2 /\
       token l1 = tok1 /\ token l2 = tok2 /\
       scope l1 = Shared /\ scope l2 = Shared).
Proof.
  intros Hreach%reachable_compatible. split.
  - intros now p l1 l2 Hl1 Hl2 Hex _.
    exact (exclusive_lock_alone t now p l1 l2 Hreach Hl1 Hl2 Hex).
  - intros now p d o1 o2 to1 to2 tok1 t1 H1 H2 Hgranted.
    exact (shared_locks_coexist t now p d o1 o2 to1 to2 tok1 t1
             H1 H2 Hgranted).
Qed.

(** On the sample table a second exclusive lock below [/a] is refused,
    and two shared locks on [/c] are granted one after the other. *)
Lemma one_exclusive_lock_per_path_witness :
  fst (Create 1 ["a"%string; "x"%string] DepthZero Exclusive "eve" 60
         sample_table) = inr ErrLocked /\
  exists tok2 t2 l1 l2,
    Create 1 ["c"%string] DepthZero Shared "dan" 60
      (snd (Create 1 ["c"%string] DepthZero Shared "cat" 60 sample_table))
      = (inl tok2, t2) /\
    holds_on t2 1 ["c"%string] l1 /\ holds_on t2 1 ["c"%string] l2 /\
    token l1 <> token l2.
Proof.
  split; [reflexivity |].
  assert (Hreach : reachable sample_table)
    by (unfold sample_table; do 2 apply reach_Create; apply reach_empty).
  destruct (proj2 (one_exclusive_lock_per_path sample_table Hreach)
              1 ["c"%string] DepthZero "cat"%string "dan"%string 60 60 2%nat
              (snd (Create 1 ["c"%string] DepthZero Shared "cat" 60
                      sample_table))
              eq_refl eq_refl eq_refl)
    as (tok2 & t2 & l1 & l2 & Hcreate & Hne & Hh1 & Hh2 & Ht1 & Ht2 & _).
  exists tok2, t2, l1, l2. split; [exact Hcreate |].
  split; [exact Hh1 |]. split; [exact Hh2 |]. congruence.
Defined.

End LockInvariant.

(** * More about [Provision], [ServeHTTP] and [emptyBodyResponseWriter] *)

Section Coverage.

Context `{Host}.

Lemma as_propfind_unfold (r : Request) :
  (if String.eqb (Header_Get (Header r) "Depth") ""
   then set_Header (Header_Add "Depth" "1" (Header r))
          (set_Method "PROPFIND" r)
   else set_Method "PROPFIND" r) = as_propfind r.
Proof. reflexivity. Qed.

Lemma as_propfind_Method (r : Request) :
  Method (as_propfind r) = "PROPFIND"%string.
Proof.
  rewrite <- as_propfind_unfold. now destruct (String.eqb _ _).
Qed.

(** Every way [ServeHTTP] can reach line 138, read backwards. *)
Lemma prepare_delegate_inv wd w r s h w' r' s' :
  ServeHTTP_prepare wd w r s = Delegate h w' r' s' ->
  h = wdHandler_of wd r /\
  w' = (if String.eqb (Method r') "HEAD"
        then emptyBodyResponseWriter w else w) /\
  (r' = r \/
   ((Method r = "GET"%string \/ Method r = "HEAD"%string) /\
    (exists info,
       Dir_Stat (root_of wd r) (URL_Path r) (w_fs s) = Ok info /\
       fi_IsDir info = true) /\
    r' = as_propfind r)) /\
  (s' = s \/
   ((Method r = "PUT"%string \/ Method r = "POST"%string) /\
    os_IsNotExist (res_err (os_Stat (parent_of wd r) (w_fs s))) = true /\
    os_MkdirAll (parent_of wd r) perm_0755 (w_fs s) = (None, w_fs s') /\
    s' = set_fs (w_fs s') s)).
Proof.
  intros Hp.
  assert (Hput : Method r = "PUT"%string \/ Method r = "POST"%string ->
            String.eqb (Method r) "HEAD" = false)
    by (intros [-> | ->]; reflexivity).
  destruct (String.eqb_spec (Method r) "PUT") as [Hm | Hnput];
    [assert (Hpp : Method r = "PUT"%string \/ Method r = "POST"%string)
       by auto
    | destruct (String.eqb_spec (Method r) "POST") as [Hm | Hnpost];
      [assert (Hpp : Method r = "PUT"%string \/ Method r = "POST"%string)
         by auto |]].
  1, 2: destruct (os_IsNotExist
                    (res_err (os_Stat (parent_of wd r) (w_fs s)))) eqn:Hstat;
    [ rewrite (prepare_put_parent_missing wd w r s Hpp Hstat) in Hp;
      destruct (os_MkdirAll _ _ _) as [[err |] fs] eqn:Hmk;
      [discriminate Hp |];
      injection Hp as <- <- <- <-; rewrite (Hput Hpp); cbn [w_fs set_fs];
      repeat split; auto
    | rewrite (prepare_put_parent_there wd w r s Hpp Hstat) in Hp;
      injection Hp as <- <- <- <-; rewrite (Hput Hpp); repeat split; auto ].
  destruct (String.eqb_spec (Method r) "GET") as [Hget | Hnget];
    [assert (Hgh : Method r = "GET"%string \/ Method r = "HEAD"%string)
       by auto
    | destruct (String.eqb_spec (Method r) "HEAD") as [Hhead | Hnhead];
      [assert (Hgh : Method r = "GET"%string \/ Method r = "HEAD"%string)
         by auto |]].
  3: { rewrite (prepare_other_method wd w r s) in Hp by assumption.
       injection Hp as <- <- <- <-.
       rewrite (eqb_other _ _ Hnhead). repeat split; auto. }
  all: destruct (Dir_Stat (root_of wd r) (URL_Path r) (w_fs s))
         as [info | e] eqn:Hstat;
    [ destruct (fi_IsDir info) eqn:Hdir |].
  all: try (rewrite (prepare_get_directory wd w r s info Hgh Hstat Hdir)
              in Hp;
            rewrite as_propfind_unfold in Hp;
            injection Hp as <- <- <- <-;
            rewrite as_propfind_Method; repeat split; eauto 8).
  all: rewrite (prepare_get_not_directory wd w r s Hgh) in Hp
         by (intros info' Hinfo; congruence);
    injection Hp as <- <- <- <-; repeat split; auto.
Qed.

(** Every way [ServeHTTP] can reach line 129, read backwards. *)
Lemma prepare_return_inv wd w r s err s' :
  ServeHTTP_prepare wd w r s = Return err s' ->
  (Method r = "PUT"%string \/ Method r = "POST"%string) /\
  os_IsNotExist (res_err (os_Stat (parent_of wd r) (w_fs s))) = true /\
  exists fs,
    os_MkdirAll (parent_of wd r) perm_0755 (w_fs s) = (Some err, fs) /\
    s' = set_resp (http_Error w "Error creating directories"
                     StatusInternalServerError (w_resp s))
           (logger_Error (logger wd) "error creating directories"
              [zap_Error err] (set_fs fs s)).
Proof.
  intros Hp.
  destruct (String.eqb_spec (Method r) "PUT") as [Hm | Hnput];
    [assert (Hpp : Method r = "PUT"%string \/ Method r = "POST"%string)
       by auto
    | destruct (String.eqb_spec (Method r) "POST") as [Hm | Hnpost];
      [assert (Hpp : Method r = "PUT"%string \/ Method r = "POST"%string)
         by auto |]].
  1, 2: destruct (os_IsNotExist
                    (res_err (os_Stat (parent_of wd r) (w_fs s)))) eqn:Hstat;
    [ rewrite (prepare_put_parent_missing wd w r s Hpp Hstat) in Hp;
      destruct (os_MkdirAll _ _ _) as [[e |] fs] eqn:Hmk;
      [injection Hp as <- <-; eauto | discriminate Hp]
    | rewrite (prepare_put_parent_there wd w r s Hpp Hstat) in Hp;
      discriminate Hp ].
  destruct (prepare_cases wd w r s) as [(e & fs & Hr) | (w1 & r1 & fs & Hd)];
    [| rewrite Hd in Hp; discriminate Hp].
  exfalso.
  destruct (String.eqb_spec (Method r) "GET") as [Hget | Hnget];
    [| destruct (String.eqb_spec (Method r) "HEAD") as [Hhead | Hnhead]].
  3: { rewrite (prepare_other_method wd w r s) in Hr by assumption.
       discriminate Hr. }
  all: destruct (Dir_Stat (root_of wd r) (URL_Path r) (w_fs s))
         as [info | e'] eqn:Hstat;
    [ destruct (fi_IsDir info) eqn:Hdir |].
  all: try (erewrite prepare_get_directory in Hr by eauto; discriminate Hr).
  all: rewrite (prepare_get_not_directory wd w r s) in Hr
         by (auto; intros info' Hinfo; congruence);
    discriminate Hr.
Qed.

(** X1. A request whose method is none of GET, HEAD, PUT and POST (the
    comparison is exact, so [get] is such a method) reaches the handler
    as it came, with the writer as it came, in the world as it was, and
    [ServeHTTP] returns nil. *)
Theorem other_methods_pass_through `{!WebDAVPackage} wd w r next s :
  Method r <> "GET"%string -> Method r <> "HEAD"%string ->
  Method r <> "PUT"%string -> Method r <> "POST"%string ->
  ServeHTTP wd w r next s =
    (let '(r', s') := webdav_Handler_ServeHTTP (wdHandler_of wd r) w r s in
     (None, r', s')).
Proof.
  intros Hg Hh Hp Hq. unfold ServeHTTP.
  now rewrite (prepare_other_method wd w r s Hg Hh Hp Hq).
Qed.

(** X2. A GET or HEAD whose stat fails, or finds something that is not a
    directory, reaches the handler unchanged and in the world as it was;
    a HEAD gets the writer that drops the body, a GET the writer as it
    came. *)
Theorem get_of_non_directory_is_untouched `{!WebDAVPackage}
    wd w r next s :
  Method r = "GET"%string \/ Method r = "HEAD"%string ->
  (exists e, Dir_Stat (root_of wd r) (URL_Path r) (w_fs s) = Err e) \/
  (exists info, Dir_Stat (root_of wd r) (URL_Path r) (w_fs s) = Ok info /\
                fi_IsDir info = false) ->
  ServeHTTP wd w r next s =
    (let '(r', s') :=
       webdav_Handler_ServeHTTP (wdHandler_of wd r)
         (if String.eqb (Method r) "HEAD"
          then emptyBodyResponseWriter w else w) r s in
     (None, r', s')).
Proof.
  intros Hm Hstat. unfold ServeHTTP.
  rewrite (prepare_get_not_directory wd w r s Hm); [reflexivity |].
  intros info Hinfo.
  destruct Hstat as [[e He] | (info' & Hi & Hd)]; congruence.
Qed.

(** X3. The writer that drops the body is handed to the handler only for
    a request that came as HEAD and is delegated as HEAD, unchanged; in
    every other case the handler gets the writer [ServeHTTP] was given.
    In particular the body of a GET is never dropped. *)
Theorem body_dropped_only_for_head wd w r s h w' r' s' :
  ServeHTTP_prepare wd w r s = Delegate h w' r' s' ->
  (Method r = "HEAD"%string /\ r' = r /\ w' = emptyBodyResponseWriter w) \/
  (Method r' <> "HEAD"%string /\ w' = w).
Proof.
  intros Hp.
  destruct (prepare_delegate_inv _ _ _ _ _ _ _ _ Hp)
    as (_ & Hw & Hr & _).
  destruct (String.eqb_spec (Method r') "HEAD") as [Hhead | Hhead];
    [| now right].
  left. destruct Hr as [-> | (_ & _ & ->)]; [auto |].
  rewrite as_propfind_Method in Hhead. discriminate Hhead.
Qed.

(** X4. What the module hands on is the request it was given, up to two
    things: the method, which stays or goes from GET or HEAD to PROPFIND,
    and the Depth header, whose values stay and get at most the value 1
    appended. Path, body, replacer and every other header are the same. *)
Theorem delegated_request_is_the_request wd w r s h w' r' s' :
  ServeHTTP_prepare wd w r s = Delegate h w' r' s' ->
  URL_Path r' = URL_Path r /\ Body r' = Body r /\
  ctx_Replacer r' = ctx_Replacer r /\
  (Method r' = Method r \/
   ((Method r = "GET"%string \/ Method r = "HEAD"%string) /\
    Method r' = "PROPFIND"%string)) /\
  (forall k : string, k <> "Depth"%string ->
     Header r' !! k = Header r !! k) /\
  (exists more,
     default [] (Header r' !! "Depth"%string) =
       default [] (Header r !! "Depth"%string) ++ more /\
     (more = [] \/ more = ["1"%string])).
Proof.
  intros Hp.
  destruct (prepare_delegate_inv _ _ _ _ _ _ _ _ Hp)
    as (_ & _ & [-> | (Hm & _ & ->)] & _).
  - repeat split; auto. exists []. rewrite app_nil_r. auto.
  - rewrite as_propfind_Method. rewrite <- as_propfind_unfold.
    destruct (String.eqb (Header_Get (Header r) "Depth") "");
      cbn [URL_Path Body ctx_Replacer Header set_Header set_Method];
      repeat split; auto.
    + intros k Hk. unfold Header_Add. now rewrite lookup_insert_ne.
    + exists ["1"%string]. unfold Header_Add.
      rewrite lookup_insert_eq. auto.
    + exists []. rewrite app_nil_r. auto.
Qed.

(** X5. Before it calls the handler the module writes nothing to the
    response, logs nothing and touches no lock system, and the handler
    value is the one built from the module and the replacer of the
    request. The file system is as it was, unless the request is a PUT or
    POST whose parent was reported missing and [os.MkdirAll] succeeded;
    then it is the one [MkdirAll] left. *)
Theorem world_before_delegation wd w r s h w' r' s' :
  ServeHTTP_prepare wd w r s = Delegate h w' r' s' ->
  h = wdHandler_of wd r /\
  w_resp s' = w_resp s /\ w_log s' = w_log s /\
  w_locks s' = w_locks s /\
  (s' = s \/
   ((Method r = "PUT"%string \/ Method r = "POST"%string) /\
    os_IsNotExist (res_err (os_Stat (parent_of wd r) (w_fs s))) = true /\
    os_MkdirAll (parent_of wd r) perm_0755 (w_fs s) = (None, w_fs s'))).
Proof.
  intros Hp.
  destruct (prepare_delegate_inv _ _ _ _ _ _ _ _ Hp)
    as (Hh & _ & _ & [Hs | (Hm & Hstat & Hmk & Hs)]).
  - subst s'. repeat split; auto.
  - split; [exact Hh |]. rewrite Hs at 1 2 3. cbn [w_resp w_log w_locks set_fs].
    repeat split; auto.
Qed.

(** The Depth the handler reads from a rewritten request: the first
    value the request carried, or 1 when it carried none. *)
Lemma as_propfind_Depth (r : Request) :
  Header_Get (Header (as_propfind r)) "Depth" =
    match Header r !! "Depth"%string with
    | Some (v :: _) => v
    | _ => "1"%string
    end.
Proof.
  rewrite <- as_propfind_unfold. unfold Header_Get, Header_Add.
  destruct (Header r !! "Depth"%string) as [[| v rest] |] eqn:Hd.
  - cbn. now rewrite lookup_insert_eq.
  - destruct (String.eqb_spec v "") as [-> | Hv]; cbn.
    + now rewrite lookup_insert_eq.
    + now rewrite Hd.
  - cbn. now rewrite lookup_insert_eq.
Qed.

(** X6. For a GET or HEAD of a directory, the PROPFIND handed on has an
    empty [Header.Get("Depth")] exactly when the request carried a Depth
    header whose first value is empty; with no Depth header, or one
    without values, it is 1. *)
Theorem delegated_depth wd w r s info :
  Method r = "GET"%string \/ Method r = "HEAD"%string ->
  Dir_Stat (root_of wd r) (URL_Path r) (w_fs s) = Ok info ->
  fi_IsDir info = true ->
  exists h w' r' s',
    ServeHTTP_prepare wd w r s = Delegate h w' r' s' /\
    (Header_Get (Header r') "Depth" = ""%string <->
       exists rest,
         Header r !! "Depth"%string = Some (""%string :: rest)) /\
    (Header r !! "Depth"%string = None \/
     Header r !! "Depth"%string = Some [] ->
     Header_Get (Header r') "Depth" = "1"%string).
Proof.
  intros Hm Hstat Hdir.
  exists (wdHandler_of wd r), w, (as_propfind r), s. split.
  - rewrite <- as_propfind_unfold.
    exact (prepare_get_directory wd w r s info Hm Hstat Hdir).
  - rewrite as_propfind_Depth.
    destruct (Header r !! "Depth"%string) as [[| v rest] |].
    + split; [split; [discriminate | intros [? [=]]] | reflexivity].
    + split; [split; [intros ->; eauto | intros [? [= -> _]]; reflexivity]
             | intros [[=] | [=]]].
    + split; [split; [discriminate | intros [? [=]]] | reflexivity].
Qed.

(** X7. For a request that is not a PUT or POST, handing the module the
    request it has just prepared changes nothing more: it is delegated
    again with the same handler value, writer, request and world. *)
Theorem preparing_twice_is_preparing_once wd w r s h w' r' s' :
  Method r <> "PUT"%string -> Method r <> "POST"%string ->
  ServeHTTP_prepare wd w r s = Delegate h w' r' s' ->
  ServeHTTP_prepare wd w r' s' = Delegate h w' r' s'.
Proof.
  intros Hnput Hnpost Hp.
  destruct (prepare_delegate_inv _ _ _ _ _ _ _ _ Hp)
    as (Hh & Hw & Hr & Hs).
  destruct Hs as [-> | ([Hm | Hm] & _)]; [| contradiction ..].
  destruct Hr as [-> | (_ & _ & ->)]; [exact Hp |].
  rewrite as_propfind_Method in Hw. cbn in Hw. subst h w'.
  rewrite prepare_other_method
    by (rewrite as_propfind_Method; discriminate).
  rewrite <- as_propfind_unfold.
  now destruct (String.eqb (Header_Get (Header r) "Depth") "").
Qed.

(** X9. Through [emptyBodyResponseWriter] the status and the headers are
    those the wrapped writer gets from the same calls with the [Write]s
    left out: a [Write] does nothing at all, not even the implicit
    status a first [Write] sets on the wrapped writer. *)
Theorem wrapped_writer_skips_writes w calls c :
  run_calls (emptyBodyResponseWriter w) calls c =
    run_calls w (List.filter (fun k => negb (is_Write k)) calls) c.
Proof.
  unfold run_calls. revert c.
  induction calls as [| k calls IH]; intros c; [reflexivity |].
  destruct k; cbn [fold_left List.filter is_Write negb run_call];
    apply IH.
Qed.

(** X11. [Provision] never hands out a lock system that is already
    allocated and does not change one: a module provisioned later shares
    no lock system with a module provisioned earlier. *)
Theorem provision_leaves_other_lock_systems ctx wd s l :
  is_Some (w_locks s !! l) ->
  lockSystem (Provision ctx wd s).1.2 <> Some l /\
  w_locks (Provision ctx wd s).2 !! l = w_locks s !! l.
Proof.
  intros Hl. unfold Provision. cbn.
  assert (Hne : fresh (dom (w_locks s)) <> l).
  { intros <-. apply (is_fresh (dom (w_locks s))).
    now apply elem_of_dom. }
  split; [congruence |]. now apply lookup_insert_ne.
Qed.

(** X12. [Provision] returns nil and leaves the file system, the log and
    the response alone. The root it leaves is never empty: an empty root
    becomes the placeholder [{http.vars.root}], any other root is kept,
    and so is the prefix. Provisioning the module again changes neither
    root nor prefix, but gives it another, new lock system. *)
Theorem provision_fills_defaults ctx wd s :
  let '(err, m, s1) := Provision ctx wd s in
  err = None /\
  Root m <> ""%string /\
  (Root wd = ""%string -> Root m = "{http.vars.root}"%string) /\
  (Root wd <> ""%string -> Root m = Root wd) /\
  Prefix m = Prefix wd /\ logger m = ctx_Logger ctx /\
  w_fs s1 = w_fs s /\ w_log s1 = w_log s /\ w_resp s1 = w_resp s /\
  (forall ctx',
     let '(_, m', s2) := Provision ctx' m s1 in
     Root m' = Root m /\ Prefix m' = Prefix m /\
     lockSystem m' <> lockSystem m /\
     (forall l, lockSystem m' = Some l -> w_locks s2 !! l = Some NewMemLS)).
Proof.
  assert (Hfresh : fresh (dom (<[fresh (dom (w_locks s)) := NewMemLS]>
                                 (w_locks s)))
                   <> fresh (dom (w_locks s))).
  { intros Heq.
    apply (is_fresh (dom (<[fresh (dom (w_locks s)) := NewMemLS]>
                            (w_locks s)))).
    rewrite Heq at 1. rewrite dom_insert_L. set_solver. }
  unfold Provision.
  cbn [Root Prefix logger lockSystem w_fs w_log w_resp w_locks set_locks].
  split; [reflexivity |].
  assert (Hroot : (if String.eqb (Root wd) "" then "{http.vars.root}"%string
                   else Root wd) <> ""%string).
  { destruct (String.eqb_spec (Root wd) ""); [discriminate | assumption]. }
  split; [exact Hroot |].
  split; [intros ->; reflexivity |].
  split; [intros Hne; now rewrite (eqb_other _ _ Hne) |].
  do 5 (split; [reflexivity |]).
  intros ctx'.
  rewrite (eqb_other _ _ Hroot).
  split; [reflexivity |]. split; [reflexivity |].
  split; [congruence |].
  intros l [= <-]. apply lookup_insert_eq.
Qed.

(** X13. Whenever [ServeHTTP] returns an error, the request was a PUT or
    POST, the error is the one [os.MkdirAll] returned for its parent
    directory, the request is as it came, and the 500 response has
    already been written; the lock systems are as they were. *)
Theorem error_means_500_written `{!WebDAVPackage}
    wd w r next s err r1 s1 :
  ServeHTTP wd w r next s = (Some err, r1, s1) ->
  r1 = r /\
  (Method r = "PUT"%string \/ Method r = "POST"%string) /\
  os_MkdirAll (parent_of wd r) perm_0755 (w_fs s) = (Some err, w_fs s1) /\
  w_resp s1 = http_Error w "Error creating directories" 500 (w_resp s) /\
  w_locks s1 = w_locks s.
Proof.
  unfold ServeHTTP.
  destruct (ServeHTTP_prepare wd w r s) as [e s' | h w' r' s'] eqn:Hp.
  - intros [= -> <- <-].
    destruct (prepare_return_inv _ _ _ _ _ _ Hp)
      as (Hm & _ & fs & Hmk & ->).
    repeat split; auto.
  - destruct (webdav_Handler_ServeHTTP _ _ _ _). discriminate.
Qed.

End Coverage.

(** * The added properties on the reference host *)

Module CoverageExamples.

Import Ref.

(** A request with the method [get], in lower case, for the directory
    [/docs]: it is not taken for a GET. *)
Lemma other_methods_pass_through_witness :
  let r := request "get" "/docs" ∅ "" in
  Method (serve "" r).1.2 = "get"%string /\
  resp_status (w_resp (serve "" r).2) = Some 400.
Proof.
  intros r. unfold serve.
  rewrite (other_methods_pass_through (wd "") http_response r no_next start)
    by discriminate.
  vm_compute. split; reflexivity.
Defined.

(** A HEAD of a path that does not exist. *)
Lemma get_of_non_directory_witness :
  let r := request "HEAD" "/missing" ∅ "" in
  Dir_Stat (root_of (wd "") r) (URL_Path r) (w_fs start)
    = Err (PathError "stat" "/srv/missing" ENOENT) /\
  Method (serve "" r).1.2 = "HEAD"%string /\
  resp_status (w_resp (serve "" r).2) = Some 404 /\
  resp_body (w_resp (serve "" r).2) = ""%string.
Proof.
  intros r.
  assert (Hstat : Dir_Stat (root_of (wd "") r) (URL_Path r) (w_fs start)
                  = Err (PathError "stat" "/srv/missing" ENOENT))
    by (vm_compute; reflexivity).
  split; [exact Hstat |]. unfold serve.
  rewrite (get_of_non_directory_is_untouched (wd "") http_response r no_next
             start (or_intror eq_refl)
             (or_introl (ex_intro _ _ Hstat))).
  vm_compute. repeat split; reflexivity.
Defined.

(** A HEAD of the file [/notes.txt] gets the writer that drops the
    body. *)
Lemma body_dropped_only_for_head_witness :
  let r := request "HEAD" "/notes.txt" ∅ "" in
  ServeHTTP_prepare (wd "") http_response r start =
    Delegate (wdHandler_of (wd "") r)
      (emptyBodyResponseWriter http_response) r start /\
  ((Method r = "HEAD"%string /\ r = r /\
    emptyBodyResponseWriter http_response
      = emptyBodyResponseWriter http_response) \/
   (Method r <> "HEAD"%string /\
    emptyBodyResponseWriter http_response = http_response)).
Proof.
  intros r.
  assert (Hprep : ServeHTTP_prepare (wd "") http_response r start =
            Delegate (wdHandler_of (wd "") r)
              (emptyBodyResponseWriter http_response) r start).
  { apply (prepare_get_not_directory (wd "") http_response r start);
      [right; reflexivity |].
    intros info Hinfo. vm_compute in Hinfo. now injection Hinfo as <-. }
  split; [exact Hprep |].
  exact (body_dropped_only_for_head (wd "") http_response r start
           _ _ _ _ Hprep).
Defined.

(** A GET of the directory [/docs] with an Accept header. *)
Lemma delegated_request_witness :
  let r := request "GET" "/docs"
             {["Accept"%string := ["text/xml"%string]]} "" in
  ServeHTTP_prepare (wd "") http_response r start =
    Delegate (wdHandler_of (wd "") r) http_response (as_propfind r) start /\
  URL_Path (as_propfind r) = "/docs"%string /\
  Header (as_propfind r) !! "Accept"%string = Some ["text/xml"%string].
Proof.
  intros r.
  assert (Hprep : ServeHTTP_prepare (wd "") http_response r start =
            Delegate (wdHandler_of (wd "") r) http_response
              (as_propfind r) start).
  { rewrite <- as_propfind_unfold.
    apply (prepare_get_directory (wd "") http_response r start docs_info);
      [left; reflexivity | vm_compute; reflexivity | reflexivity]. }
  split; [exact Hprep |].
  destruct (delegated_request_is_the_request (wd "") http_response r start
              _ _ _ _ Hprep) as (Hpath & _ & _ & _ & Hother & _).
  split; [exact Hpath |].
  rewrite (Hother "Accept"%string) by discriminate. reflexivity.
Defined.

(** A PUT of [/x/y.txt] when [/srv/x] does not exist: the directory is
    made, the response and the log are untouched. *)
Lemma world_before_delegation_witness :
  let r := request "PUT" "/x/y.txt" ∅ "hello" in
  let made := (os_MkdirAll (parent_of (wd "") r) perm_0755 (w_fs start)).2 in
  ServeHTTP_prepare (wd "") http_response r start =
    Delegate (wdHandler_of (wd "") r) http_response r (set_fs made start) /\
  w_resp (set_fs made start) = w_resp start /\
  os_MkdirAll (parent_of (wd "") r) perm_0755 (w_fs start) = (None, made).
Proof.
  intros r made.
  assert (Hprep : ServeHTTP_prepare (wd "") http_response r start =
            Delegate (wdHandler_of (wd "") r) http_response r
              (set_fs made start)).
  { rewrite (prepare_put_parent_missing (wd "") http_response r start)
      by (try (left; reflexivity); vm_compute; reflexivity).
    assert (Hmk : os_MkdirAll (parent_of (wd "") r) perm_0755 (w_fs start)
                  = (None, made)) by (vm_compute; reflexivity).
    now rewrite Hmk. }
  split; [exact Hprep |].
  destruct (world_before_delegation (wd "") http_response r start
              _ _ _ _ Hprep) as (_ & Hresp & _ & _ & [Hs | (_ & _ & Hmk)]).
  - split; [exact Hresp |]. vm_compute. reflexivity.
  - split; [exact Hresp | exact Hmk].
Defined.

(** A GET of the directory [/docs] with an empty Depth header: the
    handler still reads an empty Depth. *)
Lemma delegated_depth_witness :
  let r := request "GET" "/docs" {["Depth"%string := [""%string]]} "" in
  exists h w' r' s',
    ServeHTTP_prepare (wd "") http_response r start = Delegate h w' r' s' /\
    Header_Get (Header r') "Depth" = ""%string.
Proof.
  intros r.
  destruct (delegated_depth (wd "") http_response r start docs_info)
    as (h & w' & r' & s' & Hprep & Hempty & _);
    [left; reflexivity | vm_compute; reflexivity | reflexivity |].
  exists h, w', r', s'. split; [exact Hprep |].
  apply Hempty. exists []. reflexivity.
Defined.

(** The PROPFIND made of a GET of [/docs] is prepared a second time
    without a change. *)
Lemma preparing_twice_witness :
  let r := request "GET" "/docs" ∅ "" in
  ServeHTTP_prepare (wd "") http_response (as_propfind r) start =
    Delegate (wdHandler_of (wd "") r) http_response (as_propfind r) start.
Proof.
  intros r.
  apply (preparing_twice_is_preparing_once (wd "") http_response r start);
    [discriminate | discriminate |].
  rewrite <- as_propfind_unfold.
  apply (prepare_get_directory (wd "") http_response r start docs_info);
    [left; reflexivity | vm_compute; reflexivity | reflexivity].
Defined.

(** A handler that answers 404 with a text through the writer of a HEAD
    request. *)
Lemma wrapped_writer_keeps_body_witness :
  resp_body
    (run_calls (emptyBodyResponseWriter http_response)
       [CallWriteHeader 404; CallWrite "Not Found"] no_response)
  = ""%string.
Proof.
  exact (wrapped_writer_keeps_body http_response
           [CallWriteHeader 404; CallWrite "Not Found"] no_response
           Examples.http_response_keeps_body).
Defined.

(** A second module provisioned in the world of the first. *)
Lemma provision_leaves_other_lock_systems_witness :
  w_locks start !! 0%nat = Some [] /\
  lockSystem (Provision context0 (module0 "/other") start).1.2
    <> Some 0%nat.
Proof.
  assert (Hl : w_locks start !! 0%nat = Some []) by (vm_compute; reflexivity).
  split; [exact Hl |].
  exact (proj1 (provision_leaves_other_lock_systems context0
                  (module0 "/other") start 0%nat
                  (ex_intro _ [] Hl))).
Defined.

(** A PUT below the directory [/srv/ro], which may not be written. *)
Lemma error_means_500_written_witness :
  let r := request "PUT" "/ro/x/y.txt" ∅ "hello" in
  let err := PathError "mkdir" "/srv/ro/x" EACCES in
  (serve "" r).1 = (Some err, r) /\
  w_resp (serve "" r).2 =
    http_Error http_response "Error creating directories" 500
      (w_resp start).
Proof.
  intros r err.
  assert (Hserve : ServeHTTP (wd "") http_response r no_next start
                   = (Some err, r, (serve "" r).2))
    by (vm_compute; reflexivity).
  split; [vm_compute; reflexivity |].
  exact (proj1 (proj2 (proj2 (proj2
           (error_means_500_written (wd "") http_response r no_next start
              err r (serve "" r).2 Hserve))))).
Defined.

End CoverageExamples.

(** * HEAD requests, as the client sees them *)

Section HeadRequests.

Context `{Host}.

















End HeadRequests.

(** * HEAD requests on the reference host *)

Module HeadExamples.

Import Ref.




(** Two LOCK requests for [/notes.txt], one after the other: the handler
    of the second is given the lock system of the module, and finds in it
    the lock the handler of the first has left. *)
Lemma lock_system_shared_witness :
  let r := request "LOCK" "/notes.txt" ∅ "" in
  lockSystem (wd "") = Some 0%nat /\
  w_locks (webdav_Handler_ServeHTTP (wdHandler_of (wd "") r)
             http_response r start).2 !! 0%nat
    = Some ["/notes.txt"%string] /\
  match ServeHTTP_prepare (wd "") http_response r (serve "" r).2 with
  | Return _ s2 => w_locks s2 !! 0%nat = Some ["/notes.txt"%string]
  | Delegate h2 _ _ s2 =>
      h_LockSystem h2 = Some 0%nat /\
      w_locks s2 !! 0%nat = Some ["/notes.txt"%string]
  end.
Proof.
  intros r.
  assert (Hl : lockSystem (wd "") = Some 0%nat) by (vm_compute; reflexivity).
  assert (Hx : w_locks (webdav_Handler_ServeHTTP (wdHandler_of (wd "") r)
                          http_response r start).2 !! 0%nat
               = Some ["/notes.txt"%string]) by (vm_compute; reflexivity).
  split; [exact Hl |]. split; [exact Hx |].
  pose proof (lock_system_provisioned_once_and_shared context0 (module0 "")
                world0) as Hthm.
  unfold Provision in Hthm. cbv beta iota zeta in Hthm.
  destruct Hthm as (_ & _ & _ & _ & Hseen).
  refine (Hseen package http_response r no_next start
            (wdHandler_of (wd "") r) http_response r start 0%nat
            ["/notes.txt"%string] _ Hl Hx http_response r).
  apply (prepare_other_method (wd "") http_response r start);
    discriminate.
Defined.

End HeadExamples.
